(** * BitcoinBlockchainManager (coins/bitcoin/blockchain.js)

    A shallow embedding of the single-address Bitcoin engine of the wallet:
    [generateAddressFromSeed], [refreshAddress], [fetchAddressDetails],
    [formatTransactionResponse] and [sendFromOneAddress].

    JS numbers that count satoshis are [Z].  The [async] methods run
    sequentially: every [await] is a bind of the monad [M], a rejected
    promise is the outcome [Thrown], and everything the methods do to the
    outside (HTTP requests through [rdx/api], key derivations, the mutable
    [TransactionBuilder] draft) is recorded in [state]. *)

From stdpp Require Import base decidable option list strings gmap.
From Stdlib Require Import ZArith QArith Qround Lia.

Local Open Scope Z_scope.

(** ** Money *)

(** A JS number that carries money, tagged with the unit it is expressed
    in: an integer count of satoshis, or the human-decimal coin unit. *)
Inductive money :=
| Satoshis (z : Z)
| Decimal (q : Q).

Definition in_satoshis (m : money) : bool :=
  match m with
  | Satoshis _ => true
  | Decimal _ => false
  end.

(** ** Records exchanged with the callers and the provider *)

(** [wallet]: the row the persistence layer hands in.  Only [seed] and
    [address_index] are read; [wallet_props] holds every other property. *)
Record wallet := {
  seed : string;
  address_index : Z;
  wallet_props : gmap string Z;
}.

(** [addressParam]: only [address] and [private_key] are read. *)
Record address_row := {
  address : string;
  private_key : string;
  address_props : gmap string Z;
}.

(** What [generateAddressFromSeed] and [refreshAddress] return:
    [{ address, index, privateKey }]. *)
Record address_data := {
  ad_address : string;
  ad_index : Z;
  ad_privateKey : string;
}.

(** One element of [paymentData]: [{ address, amount }]. *)
Record payment := {
  pay_address : string;
  pay_amount : money;
}.

(** A raw output as [getOutputs] builds it and as the change branch pushes
    it: [{ address, satoshis }]. *)
Record output := {
  out_address : string;
  out_satoshis : Z;
}.

(** An unspent output of the provider and a selected input: the fields the
    code reads are [txid] and [vout]; [utxo_value] is the amount. *)
Record utxo := {
  txid : string;
  vout : Z;
  utxo_value : Z;
}.

(** Result of [getInputs]: [{ inputs, remainingSatoshis }]. *)
Record selection := {
  inputs : list utxo;
  remainingSatoshis : Z;
}.

(** Provider transaction record (the fields [formatTransactionResponse]
    destructures).  The provider's JSON is not checked by the code: an
    array or object the code dereferences may be missing or [null], which
    is [None] here. *)
Record api_input := { in_addresses : option (list string) }.
Record api_output := { o_addresses : option (list string); o_value : Z }.
Record api_tx := {
  confirmations : option Z;
  fees : Z;
  hash : string;
  tx_inputs : option (list api_input);
  tx_outputs : option (list api_output);
  received : string;
}.

(** Body of [GET FULL_ADDRESS(address)]: [{ balance, txs }]; [txs] may be
    missing. *)
Record address_response := {
  res_balance : Z;
  res_txs : option (list api_tx);
}.

(** Answer to [POST SEND_TX()]: [{ status, data: { txid } }].  [data] is
    [None] when the answer has no body object ([null] or missing); a body
    without a transaction id has [body_txid = None]. *)
Record post_body := { body_txid : option string }.
Record post_response := {
  status : Z;
  data : option post_body;
}.

(** Row produced by [formatTransactionResponse]. *)
Record formatted_tx := {
  f_amount : money;
  f_created_date : Z;
  f_fee : Z;
  f_receiver_address : option string;
  f_sender_address : option string;
  f_status : Z;
  f_transaction_id : string;
}.

Record address_details := {
  balance : Z;
  transactions : list formatted_tx;
}.

(** ** URLs, errors and results *)

(** The URL builders of [coins/bitcoin/constants], kept symbolic. *)
Inductive url :=
| FULL_ADDRESS (a : string)
| UNSPENT_OUTPUTS (a : string)
| SEND_TX.

Inductive link := VIEW_TX (t : option string).

(** [ERRORS.BLOCKCHAIN]: the three kinds the module destructures. *)
Inductive blockchain_error := API_ERROR | INSUFFICIENT_FUNDS | BROADCAST_ERROR.

(** What [sendFromOneAddress] returns: [{ error: false, link }] or the
    object [asErrorObject] makes of an error kind. *)
Inductive send_result :=
| SendOk (l : link)
| SendError (e : blockchain_error).

Definition asErrorObject (e : blockchain_error) : send_result := SendError e.

(** What a promise can be rejected with: a failed request, or an exception
    of an external library or of the JS runtime.  [TransactionError] is
    what bitcoinjs-lib throws from [addInput], [addOutput], [sign] and
    [build]. *)
Inductive exn :=
| RequestFailed (u : url)
| InvalidPrivateKey (hex : string)
| DerivationFailed
| TransactionError
| TypeError.

Inductive outcome (A : Type) :=
| Returned (a : A)
| Thrown (e : exn).
Arguments Returned {A} a.
Arguments Thrown {A} e.

(** ** The transaction draft and the observable state *)

Record keyPair := {
  kp_privateKey : string;
  kp_network : string;
}.

(** [bitcoin.TransactionBuilder]: the arguments of the [addInput],
    [addOutput] and [sign] calls that went through, in call order. *)
Record TransactionBuilder := {
  tb_network : string;
  tb_inputs : list (string * Z);
  tb_outputs : list (string * Z);
  tb_signed : list (nat * keyPair);
}.

Inductive request :=
| GET (u : url)
| POST (u : url) (rawtx : string).

(** A BIP32 path [BASE/account'/changeChain/index]. *)
Record derivation_path := {
  path_account : Z;
  path_change : Z;
  path_index : Z;
}.

Record state := {
  requests : list request;
  derivations : list derivation_path;
  tx : option TransactionBuilder;
}.

Definition initial_state : state :=
  {| requests := []; derivations := []; tx := None |}.

(** ** The monad of the manager's methods *)

Definition M (A : Type) : Type := state -> outcome A * state.

Definition ret {A} (a : A) : M A := fun s => (Returned a, s).

Definition throw {A} (e : exn) : M A := fun s => (Thrown e, s).

Definition bind {A B} (m : M A) (k : A -> M B) : M B :=
  fun s =>
    match m s with
    | (Returned a, s') => k a s'
    | (Thrown e, s') => (Thrown e, s')
    end.

(** [try { x = m } catch (err) { ... }]: the exception becomes a value. *)
Definition attempt {A} (m : M A) : M (exn + A) :=
  fun s =>
    match m s with
    | (Returned a, s') => (Returned (inr a), s')
    | (Thrown e, s') => (Returned (inl e), s')
    end.

Definition lift {A} (o : outcome A) : M A := fun s => (o, s).

Definition modify (f : state -> state) : M unit := fun s => (Returned tt, f s).

#[export] Instance M_ret : MRet M := @ret.
#[export] Instance M_bind : MBind M := fun A B k m => bind m k.
#[export] Instance M_throw : MThrow exn M := @throw.

(** [xs.forEach(x => f(x))] *)
Fixpoint forEach {A} (xs : list A) (f : A -> M unit) : M unit :=
  match xs with
  | [] => mret tt
  | x :: xs' => f x;; forEach xs' f
  end.

(** ** What the module imports *)

(** [coins/bitcoin/constants] is not under src/: its values are parameters. *)
Class Constants := {
  DEFAULT_FEE : Z;
  DUST_THRESHOLD : Z;
  NETWORK : string;
  ACCOUNT_BASE : Z;
  CHANGE_CHAIN_EXTERNAL : Z;
}.

(** [lib/utils] is not under src/ either.  [coin_value] is the number
    [satoshiToFloat] computes (the double, kept as a rational) and
    [getTimestamp] parses the provider's [received] date. *)
Class LibUtils := {
  coin_value : Z -> Q;
  getTimestamp : string -> Z;
}.

(** Modelled from the spec: [satoshiToFloat] of [lib/utils] is missing from
    src/; it is the conversion of a satoshi count to the human-decimal unit. *)
Definition satoshiToFloat `{LibUtils} (satoshis : Z) : money :=
  Decimal (coin_value satoshis).

(** [coins/bitcoin/utils] (not under src/): the three helpers
    [sendFromOneAddress] calls, taken as they are called. *)
Class CoinUtils := {
  getOutputs : list payment -> list output;
  getSatoshisToSend : list output -> Z -> Z;
  getInputs : list utxo -> Z -> selection;
}.

(** The external libraries bip39, bip32 and bitcoinjs-lib.  A call that
    throws answers [None] or [false].  The methods of the draft see the
    draft as it is when they are called: [addInput_accepts t txid vout]
    tells whether [tx.addInput(txid, vout)] goes through on the draft [t],
    and likewise for [addOutput] and [sign]; [build_toHex t] is
    [tx.build().toHex()], [None] when [build] throws. *)
Class BitcoinLib := {
  bip32_node : Type;
  mnemonicToSeedSync : string -> string;
  fromSeed : string -> bip32_node;
  derivePath : bip32_node -> derivation_path -> option (string * string);
  p2pkh : string -> string -> string;
  valid_private_key : string -> bool;
  addInput_accepts : TransactionBuilder -> string -> Z -> bool;
  addOutput_accepts : TransactionBuilder -> string -> Z -> bool;
  sign_accepts : TransactionBuilder -> nat -> keyPair -> bool;
  build_toHex : TransactionBuilder -> option string;
}.

(** The blockchain-data provider behind [rdx/api]: what it answers to each
    request; [None] when the request throws (network error, non-2xx). *)
Class Provider := {
  full_address : string -> option address_response;
  unspent_outputs : string -> option (list utxo);
  send_tx : string -> option post_response;
}.

(** ** Primitive effects *)

Definition log_request (r : request) (s : state) : state :=
  {| requests := requests s ++ [r];
     derivations := derivations s;
     tx := tx s |}.

Definition log_derivation (p : derivation_path) (s : state) : state :=
  {| requests := requests s;
     derivations := derivations s ++ [p];
     tx := tx s |}.

Definition set_tx (t : option TransactionBuilder) (s : state) : state :=
  {| requests := requests s;
     derivations := derivations s;
     tx := t |}.

Definition request_url (r : request) : url :=
  match r with
  | GET u => u
  | POST u _ => u
  end.

(** [await api.get(url)] and [await api.post(url, body)]: the request is
    issued (logged), then the provider's answer is returned or thrown. *)
Definition api_call {A} (r : request) (answer : option A) : M A :=
  modify (log_request r);;
  match answer with
  | Some a => mret a
  | None => mthrow (RequestFailed (request_url r))
  end.

Definition empty_builder (network : string) : TransactionBuilder :=
  {| tb_network := network; tb_inputs := []; tb_outputs := []; tb_signed := [] |}.

(** [new bitcoin.TransactionBuilder(network)] *)
Definition new_TransactionBuilder (network : string) : M unit :=
  modify (set_tx (Some (empty_builder network))).

Definition tb_addInput (i : string * Z) (t : TransactionBuilder) : TransactionBuilder :=
  {| tb_network := tb_network t;
     tb_inputs := tb_inputs t ++ [i];
     tb_outputs := tb_outputs t;
     tb_signed := tb_signed t |}.

Definition tb_addOutput (o : string * Z) (t : TransactionBuilder) : TransactionBuilder :=
  {| tb_network := tb_network t;
     tb_inputs := tb_inputs t;
     tb_outputs := tb_outputs t ++ [o];
     tb_signed := tb_signed t |}.

Definition tb_sign (i : nat) (k : keyPair) (t : TransactionBuilder) : TransactionBuilder :=
  {| tb_network := tb_network t;
     tb_inputs := tb_inputs t;
     tb_outputs := tb_outputs t;
     tb_signed := tb_signed t ++ [(i, k)] |}.

(** A method call on the draft [tx]: when the library accepts the call
    the draft is updated, otherwise the library's exception is thrown and
    the draft stays as it was. *)
Definition update_tx (accepts : TransactionBuilder -> bool)
    (f : TransactionBuilder -> TransactionBuilder) : M unit :=
  fun s =>
    match tx s with
    | Some t =>
      if accepts t
      then (Returned tt, set_tx (Some (f t)) s)
      else (Thrown TransactionError, s)
    | None => (Thrown TypeError, s)
    end.

(** [tx.addInput(txid, vout)], [tx.addOutput(address, satoshis)] and
    [tx.sign(i, keyPair)] *)
Definition tx_addInput `{BitcoinLib} (txid : string) (vout : Z) : M unit :=
  update_tx (fun t => addInput_accepts t txid vout) (tb_addInput (txid, vout)).

Definition tx_addOutput `{BitcoinLib} (address : string) (satoshis : Z) : M unit :=
  update_tx (fun t => addOutput_accepts t address satoshis) (tb_addOutput (address, satoshis)).

Definition tx_sign `{BitcoinLib} (i : nat) (k : keyPair) : M unit :=
  update_tx (fun t => sign_accepts t i k) (tb_sign i k).

(** [tx.build().toHex()] *)
Definition tx_build_toHex `{BitcoinLib} : M string :=
  fun s =>
    match tx s with
    | Some t =>
      match build_toHex t with
      | Some signedTx => (Returned signedTx, s)
      | None => (Thrown TransactionError, s)
      end
    | None => (Thrown TypeError, s)
    end.

(** [bitcoin.ECPair.fromPrivateKey(Buffer.from(privateKey, 'hex'),
    { network })]: throws on a key the library does not accept. *)
Definition ECPair_fromPrivateKey `{BitcoinLib} (privateKey network : string) : M keyPair :=
  if valid_private_key privateKey
  then mret {| kp_privateKey := privateKey; kp_network := network |}
  else mthrow (InvalidPrivateKey privateKey).

(** [node.derivePath(path)]: the derivation is logged; a path the library
    rejects throws. *)
Definition node_derivePath `{BitcoinLib} (node : bip32_node) (p : derivation_path) : M (string * string) :=
  modify (log_derivation p);;
  match derivePath node p with
  | Some keys => mret keys
  | None => mthrow DerivationFailed
  end.

(** ** The manager *)

(** The class has one instance field, [defaultFee], set by the constructor. *)
Record BitcoinBlockchainManager := { defaultFee : Z }.

Definition new_BitcoinBlockchainManager `{Constants} : BitcoinBlockchainManager :=
  {| defaultFee := DEFAULT_FEE |}.

(** Argument object of [sendFromOneAddress]; [fee] is optional and defaults
    to [this.defaultFee]. *)
Record send_args := {
  fromAddress : string;
  privateKey : string;
  paymentData : list payment;
  fee : option Z;
}.

(** JS truthiness of a number. *)
Definition truthy (n : Z) : bool := negb (n =? 0).

Section Manager.
Context {Cst : Constants} {Utl : LibUtils} {Cut : CoinUtils} {Lib : BitcoinLib} {Prv : Provider}.

(** Lines 80-93.  The defaults of the JS signature ([account = 0],
    [changeChain = EXTERNAL], [numberOfAddresses = 0]) are left to the
    caller; the one call in the module passes every argument. *)
Definition generateAddressFromSeed (this : BitcoinBlockchainManager)
    (mnemonicSeed : string) (account changeChain numberOfAddresses : Z) : M address_data :=
  let addressIncrement := numberOfAddresses + 1 in
  let seed := mnemonicToSeedSync mnemonicSeed in
  let node := fromSeed seed in
  derived ← node_derivePath node
    {| path_account := account; path_change := changeChain; path_index := addressIncrement |};
  let '(publicKey, privateKey) := derived in
  let address := p2pkh publicKey NETWORK in
  mret {| ad_address := address; ad_index := addressIncrement; ad_privateKey := privateKey |}.

(** Whether an output lists the address: [output.addresses.includes(address)]
    once [addresses] is known to be there. *)
Definition pays (address : string) (addresses : list string) : bool :=
  bool_decide (address ∈ addresses).

(** The inner [forEach] (lines 184-189) from the accumulated [amount] and
    [receiver_address]; [output.addresses.includes] on missing [addresses]
    is a [TypeError]. *)
Fixpoint addOutputs (address : string) (outputs : list api_output)
    (acc : Z * option string) : outcome (Z * option string) :=
  match outputs with
  | [] => Returned acc
  | output :: rest =>
    match o_addresses output with
    | None => Thrown TypeError
    | Some addresses =>
      addOutputs address rest
        (if pays address addresses
         then (fst acc + o_value output, Some address)
         else acc)
    end
  end.

(** The body of the outer [forEach] of [formatTransactionResponse] for one
    provider transaction.  [inputs[0].addresses[0]] is a [TypeError] when
    [inputs] is missing or empty or the first input has no [addresses];
    [outputs.forEach] is one when [outputs] is missing. *)
Definition formatTransaction (address : string) (transaction : api_tx) : outcome formatted_tx :=
  match tx_inputs transaction with
  | None => Thrown TypeError
  | Some inputs =>
    match inputs !! 0%nat with
    | None => Thrown TypeError
    | Some input0 =>
      match in_addresses input0 with
      | None => Thrown TypeError
      | Some senders =>
        let sender_address := senders !! 0%nat in
        let status := match confirmations transaction with
                      | Some c => if truthy c then 1 else 0
                      | None => 0
                      end in
        match tx_outputs transaction with
        | None => Thrown TypeError
        | Some outputs =>
          match addOutputs address outputs (0, None) with
          | Thrown e => Thrown e
          | Returned (amount, receiver_address) =>
            Returned {| f_amount := satoshiToFloat amount;
                        f_created_date := getTimestamp (received transaction);
                        f_fee := fees transaction;
                        f_receiver_address := receiver_address;
                        f_sender_address := sender_address;
                        f_status := status;
                        f_transaction_id := hash transaction |}
          end
        end
      end
    end
  end.

(** The outer [forEach] with its [push] (lines 164-200): the rows are
    pushed in order; the first transaction that throws ends the loop. *)
Fixpoint formatTransactions (transactions : list api_tx) (address : string)
    : outcome (list formatted_tx) :=
  match transactions with
  | [] => Returned []
  | t :: rest =>
    match formatTransaction address t with
    | Thrown e => Thrown e
    | Returned f =>
      match formatTransactions rest address with
      | Thrown e => Thrown e
      | Returned fs => Returned (f :: fs)
      end
    end
  end.

(** Lines 161-203; [transactions.forEach] on a missing [txs] is a
    [TypeError]. *)
Definition formatTransactionResponse (transactions : option (list api_tx)) (address : string)
    : outcome (list formatted_tx) :=
  match transactions with
  | None => Thrown TypeError
  | Some transactions => formatTransactions transactions address
  end.

(** Lines 139-153.  The request is not guarded: a failure rejects the
    promise. *)
Definition fetchAddressDetails (this : BitcoinBlockchainManager) (address : string)
    : M address_details :=
  res ← api_call (GET (FULL_ADDRESS address)) (full_address address);
  transactions ← lift (formatTransactionResponse (res_txs res) address);
  mret {| balance := res_balance res; transactions := transactions |}.

(** Lines 205-275.  The two requests sit in [try]/[catch] blocks that
    return the [API_ERROR] object; the key pair, the calls on the draft
    and the destructuring of the answer are outside of them.
    [outputs.push] of the change output is the rebinding of [outputs]. *)
Definition sendFromOneAddress (this : BitcoinBlockchainManager) (args : send_args)
    : M send_result :=
  let fee := default (defaultFee this) (fee args) in
  keyPair ← ECPair_fromPrivateKey (privateKey args) NETWORK;
  new_TransactionBuilder (kp_network keyPair);;
  let outputs := getOutputs (paymentData args) in
  let satoshisToSend := getSatoshisToSend outputs fee in
  fetched ← attempt (api_call (GET (UNSPENT_OUTPUTS (fromAddress args)))
                              (unspent_outputs (fromAddress args)));
  match fetched with
  | inl _ => mret (asErrorObject API_ERROR)
  | inr unspentOutputs =>
    let selected := getInputs unspentOutputs satoshisToSend in
    let remainingSatoshis := remainingSatoshis selected in
    if remainingSatoshis <? 0
    then mret (asErrorObject INSUFFICIENT_FUNDS)
    else
      let outputs :=
        if truthy remainingSatoshis && (remainingSatoshis >? DUST_THRESHOLD)
        then outputs ++ [{| out_address := fromAddress args;
                            out_satoshis := remainingSatoshis |}]
        else outputs in
      forEach (inputs selected) (fun input => tx_addInput (txid input) (vout input));;
      forEach outputs (fun output => tx_addOutput (out_address output) (out_satoshis output));;
      forEach (seq 0 (length (inputs selected))) (fun i => tx_sign i keyPair);;
      signedTx ← tx_build_toHex;
      posted ← attempt (api_call (POST SEND_TX signedTx) (send_tx signedTx));
      match posted with
      | inl _ => mret (asErrorObject API_ERROR)
      | inr res =>
        match data res with
        | None => mthrow TypeError
        | Some body =>
          if status res =? 200
          then mret (SendOk (VIEW_TX (body_txid body)))
          else mret (asErrorObject BROADCAST_ERROR)
        end
      end
  end.

(** The argument object of the sweep (lines 117-124); [fee] is left out,
    so [sendFromOneAddress] falls back on [this.defaultFee]. *)
Definition sweep_args (fromAddress privateKey newAddress : string) (balance : Z) : send_args :=
  {| fromAddress := fromAddress;
     privateKey := privateKey;
     paymentData := [{| pay_address := newAddress;
                        pay_amount := satoshiToFloat (balance - DEFAULT_FEE) |}];
     fee := None |}.

(** Lines 101-132.  The value [sendFromOneAddress] resolves to is awaited
    and dropped. *)
Definition refreshAddress (this : BitcoinBlockchainManager)
    (wallet : wallet) (addressParam : address_row) : M address_data :=
  details ← fetchAddressDetails this (address addressParam);
  let balance := balance details in
  let address := address addressParam in
  let privateKey := private_key addressParam in
  let index := address_index wallet in
  if (balance >? 0) && (balance <=? DEFAULT_FEE)
  then mret {| ad_address := address; ad_privateKey := privateKey; ad_index := index |}
  else
    newAddressData ← generateAddressFromSeed this (seed wallet)
                       ACCOUNT_BASE CHANGE_CHAIN_EXTERNAL index;
    (if negb (balance =? 0)
     then sendFromOneAddress this
            (sweep_args address privateKey (ad_address newAddressData) balance);;
          mret tt
     else mret tt);;
    mret {| ad_address := ad_address newAddressData;
            ad_index := ad_index newAddressData;
            ad_privateKey := ad_privateKey newAddressData |}.

End Manager.

(** ** Closed forms used in the statements *)

Section Draft.
Context {Cst : Constants} {Cut : CoinUtils} {Lib : BitcoinLib} {Prv : Provider}.

(** The selection [sendFromOneAddress] works with, once [unspentOutputs]
    has been fetched. *)
Definition selected_inputs (this : BitcoinBlockchainManager) (args : send_args)
    (unspentOutputs : list utxo) : selection :=
  getInputs unspentOutputs
    (getSatoshisToSend (getOutputs (paymentData args))
                       (default (defaultFee this) (fee args))).

(** The change output pushed at lines 233-238. *)
Definition change_output (args : send_args) (remaining : Z) : output :=
  {| out_address := fromAddress args; out_satoshis := remaining |}.

Definition output_pair (o : output) : string * Z := (out_address o, out_satoshis o).
Definition input_pair (i : utxo) : string * Z := (txid i, vout i).

(** The draft of a send that got past the balance check: destination
    outputs, followed by [change] (empty or the one change output). *)
Definition built_draft (this : BitcoinBlockchainManager) (args : send_args)
    (unspentOutputs : list utxo) (change : list output) : TransactionBuilder :=
  let selected := selected_inputs this args unspentOutputs in
  {| tb_network := NETWORK;
     tb_inputs := map input_pair (inputs selected);
     tb_outputs := map output_pair (getOutputs (paymentData args) ++ change);
     tb_signed := map (fun i => (i, {| kp_privateKey := privateKey args;
                                       kp_network := NETWORK |}))
                      (seq 0 (length (inputs selected))) |}.

(** The change branch (lines 233-238): the list is empty or holds the one
    change output. *)
Definition change_outputs (args : send_args) (remaining : Z) : list output :=
  if truthy remaining && (remaining >? DUST_THRESHOLD)
  then [change_output args remaining]
  else [].

Definition final_draft (this : BitcoinBlockchainManager) (args : send_args)
    (unspentOutputs : list utxo) : TransactionBuilder :=
  built_draft this args unspentOutputs
    (change_outputs args (remainingSatoshis (selected_inputs this args unspentOutputs))).

(** A [forEach] of calls on the draft, outside the monad: the draft after
    all the calls, or [None] as soon as the library rejects one. *)
Fixpoint call_each {A} (accepts : TransactionBuilder -> A -> bool)
    (f : A -> TransactionBuilder -> TransactionBuilder)
    (xs : list A) (t : TransactionBuilder) : option TransactionBuilder :=
  match xs with
  | [] => Some t
  | x :: rest => if accepts t x then call_each accepts f rest (f x t) else None
  end.

(** Lines 240-254 on a new draft: every selected input is added, then
    every output, then every input is signed.  [None] when the library
    throws on the way. *)
Definition assemble (this : BitcoinBlockchainManager) (args : send_args)
    (unspentOutputs : list utxo) : option TransactionBuilder :=
  let selected := selected_inputs this args unspentOutputs in
  let keyPair := {| kp_privateKey := privateKey args; kp_network := NETWORK |} in
  let outputs := getOutputs (paymentData args)
                 ++ change_outputs args (remainingSatoshis selected) in
  withInputs ← call_each (fun t i => addInput_accepts t (txid i) (vout i))
                 (fun i => tb_addInput (input_pair i))
                 (inputs selected) (empty_builder NETWORK);
  withOutputs ← call_each (fun t o => addOutput_accepts t (out_address o) (out_satoshis o))
                  (fun o => tb_addOutput (output_pair o))
                  outputs withInputs;
  call_each (fun t i => sign_accepts t i keyPair)
    (fun i => tb_sign i keyPair)
    (seq 0 (length (inputs selected))) withOutputs.

(** [signedTx], the hex string that is posted: [None] when the library
    throws while the draft is assembled or built. *)
Definition signed_transaction (this : BitcoinBlockchainManager) (args : send_args)
    (unspentOutputs : list utxo) : option string :=
  assemble this args unspentOutputs ≫= build_toHex.

(** What [sendFromOneAddress] ends with once the signed transaction has
    been posted (lines 259-274): a failed request is caught, an answer
    without a body object makes the destructuring throw. *)
Definition broadcast_result (signedTx : string) : outcome send_result :=
  match send_tx signedTx with
  | None => Returned (asErrorObject API_ERROR)
  | Some res =>
    match data res with
    | None => Thrown TypeError
    | Some body =>
      Returned (if status res =? 200
                then SendOk (VIEW_TX (body_txid body))
                else asErrorObject BROADCAST_ERROR)
    end
  end.

End Draft.

(** Whether a provider output lists [address]. *)
Definition lists (address : string) (o : api_output) : bool :=
  match o_addresses o with
  | Some addresses => pays address addresses
  | None => false
  end.

(** Sum of the values of the outputs that list [address]. *)
Definition received_by (address : string) (outputs : list api_output) : Z :=
  foldr (fun o total => if lists address o then o_value o + total else total) 0 outputs.

(** A provider transaction the loop can format: it has a first input with
    its [addresses], and [outputs] that all have their [addresses]. *)
Definition formattable (t : api_tx) : Prop :=
  (exists inputs input0 senders,
     tx_inputs t = Some inputs /\ inputs !! 0%nat = Some input0 /\
     in_addresses input0 = Some senders) /\
  (exists outputs,
     tx_outputs t = Some outputs /\
     Forall (fun o => is_Some (o_addresses o)) outputs).

Definition is_POST (r : request) : bool :=
  match r with
  | POST _ _ => true
  | GET _ => false
  end.

(** ** A concrete world for examples *)

Module Sample.

Definition constants : Constants :=
  {| DEFAULT_FEE := 10000;
     DUST_THRESHOLD := 1000;
     NETWORK := "bitcoin";
     ACCOUNT_BASE := 0;
     CHANGE_CHAIN_EXTERNAL := 0 |}.

Definition utils : LibUtils :=
  {| coin_value := fun satoshis => (satoshis # 100000000)%Q;
     getTimestamp := fun _ => 0 |}.

(** Modelled from the spec: [getOutputs], [getSatoshisToSend] and
    [getInputs] of [coins/bitcoin/utils] are missing from src/.  Payments
    become raw outputs in satoshis; the spend target is the sum of the
    outputs plus the fee; inputs are accumulated in provider order until
    the accumulated value reaches the target, and the remainder is the
    accumulated value minus the target. *)
Definition floatToSatoshi (m : money) : Z :=
  match m with
  | Satoshis z => z
  | Decimal q => Qfloor (q * (100000000 # 1) + (1 # 2))
  end.

Definition spec_getOutputs (paymentData : list payment) : list output :=
  map (fun p => {| out_address := pay_address p;
                   out_satoshis := floatToSatoshi (pay_amount p) |}) paymentData.

Definition spec_getSatoshisToSend (outputs : list output) (fee : Z) : Z :=
  foldl (fun total o => total + out_satoshis o) fee outputs.

Fixpoint accumulate (utxos : list utxo) (target accumulated : Z) : list utxo * Z :=
  match utxos with
  | [] => ([], accumulated)
  | u :: rest =>
    if accumulated >=? target then ([], accumulated)
    else let '(chosen, total) := accumulate rest target (accumulated + utxo_value u) in
         (u :: chosen, total)
  end.

Definition spec_getInputs (unspentOutputs : list utxo) (satoshisToSend : Z) : selection :=
  let '(chosen, total) := accumulate unspentOutputs satoshisToSend 0 in
  {| inputs := chosen; remainingSatoshis := total - satoshisToSend |}.

Definition total_value (utxos : list utxo) : Z :=
  foldr (fun u total => utxo_value u + total) 0 utxos.

Definition coin_utils : CoinUtils :=
  {| getOutputs := spec_getOutputs;
     getSatoshisToSend := spec_getSatoshisToSend;
     getInputs := spec_getInputs |}.

(** Reading a hexadecimal string, most significant digit first. *)
Definition hex_digit (c : Ascii.ascii) : option Z :=
  let n := Z.of_nat (Ascii.nat_of_ascii c) in
  if (48 <=? n) && (n <=? 57) then Some (n - 48)
  else if (97 <=? n) && (n <=? 102) then Some (n - 87)
  else if (65 <=? n) && (n <=? 70) then Some (n - 55)
  else None.

Fixpoint hex_value_from (acc : Z) (s : string) : option Z :=
  match s with
  | String.EmptyString => Some acc
  | String.String c rest =>
    match hex_digit c with
    | Some d => hex_value_from (16 * acc + d) rest
    | None => None
    end
  end.

Definition hex_value (s : string) : option Z := hex_value_from 0 s.

(** The order of the group of secp256k1. *)
Definition curve_order : Z :=
  default 0 (hex_value "FFFFFFFFFFFFFFFFFFFFFFFFFFFFFFFEBAAEDCE6AF48A03BBFD25E8CD0364141").

(** Addresses with a valid checksum on the main network. *)
Definition known_addresses : list string :=
  [ "1A1zP1eP5QGefi2DMPTfTL5SLmv7DivfNa";
    "1BgGZ9tcN4rm9KBzDn7KprQz87SZ26SAMH";
    "12c6DSiU4Rq3P4ZxziKxzrL5LmMBrzjrJX" ].

(** A stand-in for the libraries.  Keys and addresses it derives are
    readable strings and path indices outside [0, 2^32) are rejected.  A
    private key is 64 hexadecimal digits whose value lies strictly between
    0 and the curve order.  [addInput] wants a transaction id of 64
    hexadecimal digits, an output index that fits 32 bits, and an input
    that is not in the draft yet; [addOutput] wants an address it knows
    (one of [known_addresses], or one this stand-in derived) and an amount
    between 0 and 21 million coins; [sign] wants an existing input that is
    not signed yet and a key of the draft's network; [build] wants at
    least one input and one output, and every input signed. *)
Definition lib : BitcoinLib :=
  {| bip32_node := string;
     mnemonicToSeedSync := fun mnemonic => mnemonic;
     fromSeed := fun seed => seed;
     derivePath := fun node p =>
       if (0 <=? path_index p) && (path_index p <? 4294967296)
       then Some (String.append "pub/" node, String.append "priv/" node)
       else None;
     p2pkh := fun publicKey network => String.append "addr/" publicKey;
     valid_private_key := fun hex =>
       match hex_value hex with
       | Some k => Nat.eqb (String.length hex) 64 && (0 <? k) && (k <? curve_order)
       | None => false
       end;
     addInput_accepts := fun t txid vout =>
       match hex_value txid with Some _ => true | None => false end && Nat.eqb (String.length txid) 64
       && (0 <=? vout) && (vout <? 4294967296)
       && negb (bool_decide ((txid, vout) ∈ tb_inputs t));
     addOutput_accepts := fun t address satoshis =>
       (bool_decide (address ∈ known_addresses) || String.prefix "addr/pub/" address)
       && (0 <=? satoshis) && (satoshis <=? 2100000000000000);
     sign_accepts := fun t i k =>
       bool_decide (i < length (tb_inputs t))%nat
       && String.eqb (kp_network k) (tb_network t)
       && negb (bool_decide (i ∈ map fst (tb_signed t)));
     build_toHex := fun t =>
       if negb (Nat.eqb (length (tb_inputs t)) 0) && negb (Nat.eqb (length (tb_outputs t)) 0)
          && Nat.eqb (length (tb_signed t)) (length (tb_inputs t))
       then Some (String.concat "," (map fst (tb_inputs t) ++ map fst (tb_outputs t)))
       else None |}.

Definition provider (bal : Z) (utxos : option (list utxo)) (post : option post_response)
    : Provider :=
  {| full_address := fun _ => Some {| res_balance := bal; res_txs := Some [] |};
     unspent_outputs := fun _ => utxos;
     send_tx := fun _ => post |}.

Definition key : string :=
  "00000000000000000000000000000000000000000000000000000000000000a1".

Definition the_wallet : wallet :=
  {| seed := "abandon about"; address_index := 3; wallet_props := ∅ |}.

Definition the_address : address_row :=
  {| address := "old"; private_key := key; address_props := {[ "index" := 7 ]} |}.

Definition two_utxos : list utxo :=
  [ {| txid := "aa"; vout := 0; utxo_value := 50000 |};
    {| txid := "bb"; vout := 1; utxo_value := 30000 |} ].

Definition accepted : post_response :=
  {| status := 200; data := Some {| body_txid := Some "cc" |} |}.

Definition one_small_utxo : list utxo :=
  [ {| txid := "dd"; vout := 0; utxo_value := 500 |} ].

Definition this : BitcoinBlockchainManager := @new_BitcoinBlockchainManager constants.

(** Paying 0.0005 coin (50000 satoshis) to ["dest"] with the default fee:
    the spend target is 60000 satoshis. *)
Definition pay_args : send_args :=
  {| fromAddress := "old"; privateKey := key;
     paymentData := [{| pay_address := "dest"; pay_amount := Decimal (5 # 10000) |}];
     fee := None |}.

(** The same payment with a fee of 29500: the target is 79500 and the two
    sample outputs leave 500, below the dust threshold. *)
Definition dust_args : send_args :=
  {| fromAddress := "old"; privateKey := key;
     paymentData := [{| pay_address := "dest"; pay_amount := Decimal (5 # 10000) |}];
     fee := Some 29500 |}.

Definition bad_key_args : send_args :=
  {| fromAddress := "old"; privateKey := "zz";
     paymentData := [{| pay_address := "dest"; pay_amount := Decimal (5 # 10000) |}];
     fee := None |}.

(** Status 200 with a body that holds no transaction id. *)
Definition no_txid : post_response :=
  {| status := 200; data := Some {| body_txid := None |} |}.

(** Status 200 with no body object at all. *)
Definition no_body : post_response := {| status := 200; data := None |}.

(** Status 201 with a transaction id. *)
Definition created : post_response :=
  {| status := 201; data := Some {| body_txid := Some "cc" |} |}.

(** The record of the wallet's next address (index 4). *)
Definition next_address : address_data :=
  {| ad_address := "addr/pub/abandon about";
     ad_index := 4;
     ad_privateKey := "priv/abandon about" |}.

(** Two provider transactions for ["old"]: the first pays it twice (one
    output lists it beside another address) and is confirmed; the second
    pays somebody else and is unconfirmed. *)
Definition paid_twice : api_tx :=
  {| confirmations := Some 6; fees := 300; hash := "t1";
     tx_inputs := Some [ {| in_addresses := Some ["payer"] |} ];
     tx_outputs := Some [ {| o_addresses := Some ["old"]; o_value := 700 |};
                          {| o_addresses := Some ["else"]; o_value := 50 |};
                          {| o_addresses := Some ["else"; "old"]; o_value := 40 |} ];
     received := "2020-01-01" |}.

Definition pays_other : api_tx :=
  {| confirmations := None; fees := 200; hash := "t2";
     tx_inputs := Some [ {| in_addresses := Some [] |}; {| in_addresses := Some ["x"] |} ];
     tx_outputs := Some [ {| o_addresses := Some ["else"]; o_value := 900 |} ];
     received := "2020-01-02" |}.

(** A record without inputs, which the loop cannot format. *)
Definition no_inputs : api_tx :=
  {| confirmations := Some 1; fees := 0; hash := "t3";
     tx_inputs := Some [];
     tx_outputs := Some [ {| o_addresses := Some ["old"]; o_value := 5 |} ];
     received := "2020-01-03" |}.

(** A record whose second output has [addresses: null], as the provider
    sends for a data output. *)
Definition null_addresses : api_tx :=
  {| confirmations := Some 1; fees := 0; hash := "t4";
     tx_inputs := Some [ {| in_addresses := Some ["payer"] |} ];
     tx_outputs := Some [ {| o_addresses := Some ["old"]; o_value := 5 |};
                          {| o_addresses := None; o_value := 0 |} ];
     received := "2020-01-04" |}.

(** A provider that knows the history of every address. *)
Definition provider_with_history (bal : Z) (txs : list api_tx) : Provider :=
  {| full_address := fun _ => Some {| res_balance := bal; res_txs := Some txs |};
     unspent_outputs := fun _ => None;
     send_tx := fun _ => None |}.

(** A provider whose every request fails. *)
Definition provider_down : Provider :=
  {| full_address := fun _ => None;
     unspent_outputs := fun _ => None;
     send_tx := fun _ => None |}.

(** A wallet whose next index the stand-in library rejects. *)
Definition exhausted_wallet : wallet :=
  {| seed := "abandon about"; address_index := 4294967295; wallet_props := ∅ |}.

(** An address record whose stored key is not a key. *)
Definition bad_key_address : address_row :=
  {| address := "old"; private_key := "zz"; address_props := ∅ |}.

(** Data the real libraries accept: the private key 1 with its address on
    the main network, two unspent outputs with 64-digit transaction ids,
    and a payment of 0.0005 coin to a well-formed address. *)
Definition funded_key : string :=
  "0000000000000000000000000000000000000000000000000000000000000001".

Definition funded_address : address_row :=
  {| address := "1BgGZ9tcN4rm9KBzDn7KprQz87SZ26SAMH"; private_key := funded_key;
     address_props := ∅ |}.

Definition spendable : list utxo :=
  [ {| txid := "4a5e1e4baab89f3a32518a88c31bc87f618f76673e2cc77ab2127b7afdeda33b";
       vout := 0; utxo_value := 50000 |};
    {| txid := "0e3e2357e806b6cdb1f70b54c3a3a17b6714ee1f0e68bebb44a74b1efd512098";
       vout := 1; utxo_value := 30000 |} ].

Definition payment_args : send_args :=
  {| fromAddress := "1BgGZ9tcN4rm9KBzDn7KprQz87SZ26SAMH"; privateKey := funded_key;
     paymentData := [{| pay_address := "1A1zP1eP5QGefi2DMPTfTL5SLmv7DivfNa";
                        pay_amount := Decimal (5 # 10000) |}];
     fee := None |}.

(** The same payment with a fee of 29500: the target is 79500 and the two
    outputs leave 500, below the dust threshold. *)
Definition payment_dust_args : send_args :=
  {| fromAddress := "1BgGZ9tcN4rm9KBzDn7KprQz87SZ26SAMH"; privateKey := funded_key;
     paymentData := [{| pay_address := "1A1zP1eP5QGefi2DMPTfTL5SLmv7DivfNa";
                        pay_amount := Decimal (5 # 10000) |}];
     fee := Some 29500 |}.

(** Two payments, to check the order of the outputs. *)
Definition two_payments_args : send_args :=
  {| fromAddress := "1BgGZ9tcN4rm9KBzDn7KprQz87SZ26SAMH"; privateKey := funded_key;
     paymentData := [{| pay_address := "12c6DSiU4Rq3P4ZxziKxzrL5LmMBrzjrJX";
                        pay_amount := Decimal (2 # 10000) |};
                     {| pay_address := "1A1zP1eP5QGefi2DMPTfTL5SLmv7DivfNa";
                        pay_amount := Decimal (3 # 10000) |}];
     fee := None |}.

(** The same payment to a string that is no address. *)
Definition bad_destination_args : send_args :=
  {| fromAddress := "1BgGZ9tcN4rm9KBzDn7KprQz87SZ26SAMH"; privateKey := funded_key;
     paymentData := [{| pay_address := "not an address"; pay_amount := Decimal (5 # 10000) |}];
     fee := None |}.

End Sample.

(** ** The singleton accessor *)

(** The class object of [BitcoinBlockchainManager]: the managers
    constructed so far, a reference being a position in [objects], and the
    static field [_instance] ([None] for [null] and [undefined]). *)
Record class_state := {
  objects : list BitcoinBlockchainManager;
  _instance : option nat;
}.

Definition class_loaded : class_state := {| objects := []; _instance := None |}.

(** [static get instance()], lines 64-69: constructs the manager on first
    use and returns the reference held by [_instance]. *)
Definition instance `{Constants} (c : class_state) : nat * class_state :=
  match _instance c with
  | Some reference => (reference, c)
  | None =>
    let reference := length (objects c) in
    (reference,
     {| objects := objects c ++ [new_BitcoinBlockchainManager];
        _instance := Some reference |})
  end.

(** [static resetInstance()], lines 71-73. *)
Definition resetInstance (c : class_state) : class_state :=
  {| objects := objects c; _instance := None |}.

(** [_instance], when set, refers to a constructed manager. *)
Definition instance_valid (c : class_state) : Prop :=
  forall reference, _instance c = Some reference -> is_Some (objects c !! reference).

(** * Properties *)

(** ** Running the monad *)

Lemma bind_returned {A B} (m : M A) (k : A -> M B) s a s' :
  m s = (Returned a, s') -> (m ≫= k) s = k a s'.
Proof. intros E. unfold mbind, M_bind, bind. now rewrite E. Qed.

Lemma bind_thrown {A B} (m : M A) (k : A -> M B) s e s' :
  m s = (Thrown e, s') -> (m ≫= k) s = (Thrown e, s').
Proof. intros E. unfold mbind, M_bind, bind. now rewrite E. Qed.

Lemma attempt_returned {A} (m : M A) s a s' :
  m s = (Returned a, s') -> attempt m s = (Returned (inr a), s').
Proof. intros E. unfold attempt. now rewrite E. Qed.

Lemma attempt_thrown {A} (m : M A) s e s' :
  m s = (Thrown e, s') -> attempt m s = (Returned (inl e), s').
Proof. intros E. unfold attempt. now rewrite E. Qed.

Lemma api_call_some {A} r (a : A) s :
  api_call r (Some a) s = (Returned a, log_request r s).
Proof. reflexivity. Qed.

Lemma api_call_none {A} r s :
  api_call r (@None A) s = (Thrown (RequestFailed (request_url r)), log_request r s).
Proof. reflexivity. Qed.

(** A [forEach] whose body calls a method of the draft: when the library
    accepts every call the draft is the one [call_each] computes; when it
    rejects one, its exception is thrown and only the draft has changed. *)
Lemma forEach_update_tx {A} (accepts : TransactionBuilder -> A -> bool)
    (g : A -> TransactionBuilder -> TransactionBuilder) xs :
  forall s t,
    tx s = Some t ->
    match call_each accepts g xs t with
    | Some t' =>
      forEach xs (fun x => update_tx (fun t => accepts t x) (g x)) s
        = (Returned tt, set_tx (Some t') s)
    | None =>
      exists t',
        forEach xs (fun x => update_tx (fun t => accepts t x) (g x)) s
          = (Thrown TransactionError, set_tx (Some t') s)
    end.
Proof.
  induction xs as [|x xs IH]; intros s t Htx; cbn [call_each forEach].
  - unfold mret, M_ret, ret. f_equal. destruct s; cbn in *; now subst.
  - destruct (accepts t x) eqn:Hacc.
    + assert (Hstep : update_tx (fun t => accepts t x) (g x) s
                      = (Returned tt, set_tx (Some (g x t)) s)).
      { unfold update_tx. now rewrite Htx, Hacc. }
      specialize (IH (set_tx (Some (g x t)) s) (g x t) eq_refl).
      destruct (call_each accepts g xs (g x t)) as [t'|].
      * erewrite bind_returned by exact Hstep. exact IH.
      * destruct IH as [t' IH]. exists t'.
        erewrite bind_returned by exact Hstep. exact IH.
    + exists t. erewrite bind_thrown.
      * reflexivity.
      * unfold update_tx. rewrite Htx, Hacc. f_equal.
        destruct s; cbn in *; now subst.
Qed.

(** When every call is accepted the draft is the fold of the calls. *)
Lemma call_each_Some {A} (accepts : TransactionBuilder -> A -> bool)
    (g : A -> TransactionBuilder -> TransactionBuilder) xs :
  forall t t', call_each accepts g xs t = Some t' -> t' = foldl (fun t x => g x t) t xs.
Proof.
  induction xs as [|x xs IH]; intros t t'; cbn.
  - now intros [= <-].
  - destruct (accepts t x); [apply IH | discriminate].
Qed.

Lemma foldl_addInput {A} (f : A -> string * Z) xs : forall t,
  foldl (fun t x => tb_addInput (f x) t) t xs =
  {| tb_network := tb_network t; tb_inputs := tb_inputs t ++ map f xs;
     tb_outputs := tb_outputs t; tb_signed := tb_signed t |}.
Proof.
  induction xs as [|x xs IH]; intros t; simpl.
  - rewrite app_nil_r. now destruct t.
  - rewrite IH. simpl. now rewrite <- app_assoc.
Qed.

Lemma foldl_addOutput {A} (f : A -> string * Z) xs : forall t,
  foldl (fun t x => tb_addOutput (f x) t) t xs =
  {| tb_network := tb_network t; tb_inputs := tb_inputs t;
     tb_outputs := tb_outputs t ++ map f xs; tb_signed := tb_signed t |}.
Proof.
  induction xs as [|x xs IH]; intros t; simpl.
  - rewrite app_nil_r. now destruct t.
  - rewrite IH. simpl. now rewrite <- app_assoc.
Qed.

Lemma foldl_sign (k : keyPair) xs : forall t,
  foldl (fun t i => tb_sign i k t) t xs =
  {| tb_network := tb_network t; tb_inputs := tb_inputs t;
     tb_outputs := tb_outputs t;
     tb_signed := tb_signed t ++ map (fun i => (i, k)) xs |}.
Proof.
  induction xs as [|x xs IH]; intros t; simpl.
  - rewrite app_nil_r. now destruct t.
  - rewrite IH. simpl. now rewrite <- app_assoc.
Qed.

(** ** The ways [sendFromOneAddress] ends *)

Section SendProperties.
Context {Cst : Constants} {Utl : LibUtils} {Cut : CoinUtils} {Lib : BitcoinLib} {Prv : Provider}.
Implicit Types (this : BitcoinBlockchainManager) (args : send_args) (s : state).

Lemma send_invalid_key this args s :
  valid_private_key (privateKey args) = false ->
  sendFromOneAddress this args s = (Thrown (InvalidPrivateKey (privateKey args)), s).
Proof.
  intros Hkey. unfold sendFromOneAddress, ECPair_fromPrivateKey.
  rewrite Hkey. reflexivity.
Qed.

Lemma send_provider_down this args s :
  valid_private_key (privateKey args) = true ->
  unspent_outputs (fromAddress args) = None ->
  sendFromOneAddress this args s =
    (Returned (asErrorObject API_ERROR),
     log_request (GET (UNSPENT_OUTPUTS (fromAddress args)))
                 (set_tx (Some (empty_builder NETWORK)) s)).
Proof.
  intros Hkey Hdown. unfold sendFromOneAddress, ECPair_fromPrivateKey.
  rewrite Hkey, Hdown. reflexivity.
Qed.

Lemma send_insufficient this args s unspentOutputs :
  valid_private_key (privateKey args) = true ->
  unspent_outputs (fromAddress args) = Some unspentOutputs ->
  remainingSatoshis (selected_inputs this args unspentOutputs) < 0 ->
  sendFromOneAddress this args s =
    (Returned (asErrorObject INSUFFICIENT_FUNDS),
     log_request (GET (UNSPENT_OUTPUTS (fromAddress args)))
                 (set_tx (Some (empty_builder NETWORK)) s)).
Proof.
  intros Hkey Hfetch Hneg. apply Z.ltb_lt in Hneg.
  unfold selected_inputs in Hneg.
  unfold sendFromOneAddress, ECPair_fromPrivateKey.
  rewrite Hkey, Hfetch.
  unfold mbind, M_bind, bind, attempt, api_call, mbind, M_bind, bind; simpl.
  rewrite Hneg. reflexivity.
Qed.

(** The draft that is assembled, when it is, is [final_draft]. *)
Lemma assemble_final_draft this args unspentOutputs t :
  assemble this args unspentOutputs = Some t ->
  t = final_draft this args unspentOutputs.
Proof.
  unfold assemble. cbv zeta.
  destruct (call_each _ _ (inputs _) _) as [t1|] eqn:E1; [|discriminate].
  cbn [mbind option_bind].
  destruct (call_each _ _ (_ ++ _) t1) as [t2|] eqn:E2; [|discriminate].
  cbn [mbind option_bind]. intros E3.
  apply call_each_Some in E1, E2, E3. subst t t2 t1.
  rewrite (foldl_addInput input_pair), (foldl_addOutput output_pair), foldl_sign.
  reflexivity.
Qed.

(** Past the balance check: the three loops on the draft. *)
Lemma send_past_balance_check this args s unspentOutputs :
  valid_private_key (privateKey args) = true ->
  unspent_outputs (fromAddress args) = Some unspentOutputs ->
  0 <= remainingSatoshis (selected_inputs this args unspentOutputs) ->
  match assemble this args unspentOutputs with
  | Some t =>
    match build_toHex t with
    | Some signedTx =>
      sendFromOneAddress this args s =
        (broadcast_result signedTx,
         {| requests := (requests s ++ [GET (UNSPENT_OUTPUTS (fromAddress args))])
                          ++ [POST SEND_TX signedTx];
            derivations := derivations s;
            tx := Some t |})
    | None =>
      sendFromOneAddress this args s =
        (Thrown TransactionError,
         {| requests := requests s ++ [GET (UNSPENT_OUTPUTS (fromAddress args))];
            derivations := derivations s;
            tx := Some t |})
    end
  | None =>
    exists t',
      sendFromOneAddress this args s =
        (Thrown TransactionError,
         {| requests := requests s ++ [GET (UNSPENT_OUTPUTS (fromAddress args))];
            derivations := derivations s;
            tx := Some t' |})
  end.
Proof.
  intros Hkey Hfetch Hpos.
  set (remaining := remainingSatoshis (selected_inputs this args unspentOutputs)) in *.
  assert (Hge : (remaining <? 0) = false) by (apply Z.ltb_ge; exact Hpos).
  unfold sendFromOneAddress, ECPair_fromPrivateKey.
  rewrite Hkey, Hfetch.
  erewrite bind_returned by reflexivity.
  erewrite bind_returned by reflexivity.
  erewrite bind_returned by (apply attempt_returned, api_call_some).
  cbv beta iota zeta.
  change (getInputs unspentOutputs _) with (selected_inputs this args unspentOutputs).
  fold remaining. rewrite Hge.
  cbn [kp_network].
  set (s1 := log_request _ (set_tx _ s)).
  assert (Hs1 : tx s1 = Some (empty_builder NETWORK)) by reflexivity.
  assert (Hout : (if truthy remaining && (remaining >? DUST_THRESHOLD)
                  then getOutputs (paymentData args)
                       ++ [{| out_address := fromAddress args; out_satoshis := remaining |}]
                  else getOutputs (paymentData args))
                 = getOutputs (paymentData args) ++ change_outputs args remaining).
  { unfold change_outputs, change_output.
    destruct (truthy remaining && (remaining >? DUST_THRESHOLD)); [|now rewrite app_nil_r].
    reflexivity. }
  rewrite Hout. clear Hout.
  unfold assemble. cbv zeta. fold remaining.
  unfold tx_addInput, tx_addOutput, tx_sign.
  pose proof (forEach_update_tx
                (fun t i => addInput_accepts t (txid i) (vout i))
                (fun i => tb_addInput (input_pair i))
                (inputs (selected_inputs this args unspentOutputs)) s1 _ Hs1) as H1.
  destruct (call_each _ _ (inputs _) _) as [t1|]; cbn [mbind option_bind].
  2: { destruct H1 as [t' H1]. exists t'. now erewrite bind_thrown by exact H1. }
  erewrite bind_returned by exact H1.
  pose proof (forEach_update_tx
                (fun t o => addOutput_accepts t (out_address o) (out_satoshis o))
                (fun o => tb_addOutput (output_pair o))
                (getOutputs (paymentData args) ++ change_outputs args remaining)
                (set_tx (Some t1) s1) _ eq_refl) as H2.
  destruct (call_each _ _ (_ ++ _) t1) as [t2|]; cbn [mbind option_bind].
  2: { destruct H2 as [t' H2]. exists t'. now erewrite bind_thrown by exact H2. }
  erewrite bind_returned by exact H2.
  pose proof (forEach_update_tx
                (fun t i => sign_accepts t i {| kp_privateKey := privateKey args;
                                               kp_network := NETWORK |})
                (fun i => tb_sign i {| kp_privateKey := privateKey args;
                                       kp_network := NETWORK |})
                (seq 0 (length (inputs (selected_inputs this args unspentOutputs))))
                (set_tx (Some t2) (set_tx (Some t1) s1)) _ eq_refl) as H3.
  destruct (call_each _ _ (seq _ _) t2) as [t|].
  2: { destruct H3 as [t' H3]. exists t'. now erewrite bind_thrown by exact H3. }
  erewrite bind_returned by exact H3.
  unfold tx_build_toHex, mbind, M_bind, bind. cbn [tx set_tx].
  destruct (build_toHex t) as [signedTx|]; [|reflexivity].
  unfold attempt, api_call, mbind, M_bind, bind, broadcast_result. cbn.
  destruct (send_tx signedTx) as [res|]; cbn; [|reflexivity].
  destruct (data res) as [body|]; cbn; [|reflexivity].
  now destruct (status res =? 200).
Qed.

Lemma send_posted this args s unspentOutputs signedTx :
  valid_private_key (privateKey args) = true ->
  unspent_outputs (fromAddress args) = Some unspentOutputs ->
  0 <= remainingSatoshis (selected_inputs this args unspentOutputs) ->
  signed_transaction this args unspentOutputs = Some signedTx ->
  sendFromOneAddress this args s =
    (broadcast_result signedTx,
     {| requests := (requests s ++ [GET (UNSPENT_OUTPUTS (fromAddress args))])
                      ++ [POST SEND_TX signedTx];
        derivations := derivations s;
        tx := Some (final_draft this args unspentOutputs) |}).
Proof.
  intros Hkey Hfetch Hpos Hsigned.
  pose proof (send_past_balance_check this args s unspentOutputs Hkey Hfetch Hpos) as Hrun.
  unfold signed_transaction in Hsigned.
  destruct (assemble this args unspentOutputs) as [t|] eqn:Hasm; [|discriminate].
  cbn in Hsigned. rewrite Hsigned in Hrun.
  now rewrite <- (assemble_final_draft _ _ _ _ Hasm).
Qed.

Lemma send_draft_rejected this args s unspentOutputs :
  valid_private_key (privateKey args) = true ->
  unspent_outputs (fromAddress args) = Some unspentOutputs ->
  0 <= remainingSatoshis (selected_inputs this args unspentOutputs) ->
  signed_transaction this args unspentOutputs = None ->
  exists t',
    sendFromOneAddress this args s =
      (Thrown TransactionError,
       {| requests := requests s ++ [GET (UNSPENT_OUTPUTS (fromAddress args))];
          derivations := derivations s;
          tx := Some t' |}).
Proof.
  intros Hkey Hfetch Hpos Hsigned.
  pose proof (send_past_balance_check this args s unspentOutputs Hkey Hfetch Hpos) as Hrun.
  unfold signed_transaction in Hsigned.
  destruct (assemble this args unspentOutputs) as [t|] eqn:Hasm; [|exact Hrun].
  cbn in Hsigned. rewrite Hsigned in Hrun. eauto.
Qed.

End SendProperties.

(** ** Claims about [sendFromOneAddress] *)

Section SendClaims.
Context {Cst : Constants} {Utl : LibUtils} {Cut : CoinUtils} {Lib : BitcoinLib} {Prv : Provider}.
Implicit Types (this : BitcoinBlockchainManager) (args : send_args) (s : state).

(** C3.  When the selection over the fetched unspent outputs leaves
    [remainingSatoshis < 0], [sendFromOneAddress] returns the
    [INSUFFICIENT_FUNDS] error object; the draft is still the empty one
    (no input added, nothing signed) and the only request issued is the
    fetch of the unspent outputs, so nothing is broadcast. *)
Theorem sendFromOneAddress_insufficient_funds this args s unspentOutputs :
  valid_private_key (privateKey args) = true ->
  unspent_outputs (fromAddress args) = Some unspentOutputs ->
  remainingSatoshis (selected_inputs this args unspentOutputs) < 0 ->
  exists s' t,
    sendFromOneAddress this args s = (Returned (asErrorObject INSUFFICIENT_FUNDS), s') /\
    tx s' = Some t /\ tb_inputs t = [] /\ tb_outputs t = [] /\ tb_signed t = [] /\
    requests s' = requests s ++ [GET (UNSPENT_OUTPUTS (fromAddress args))] /\
    List.filter is_POST (requests s') = List.filter is_POST (requests s).
Proof.
  intros Hkey Hfetch Hneg.
  eexists _, _. split; [apply (send_insufficient _ _ _ _ Hkey Hfetch Hneg)|].
  cbn. repeat split.
  rewrite List.filter_app. cbn. now rewrite app_nil_r.
Qed.

(** C7.  When the selection succeeds ([remainingSatoshis >= 0]) and the
    library accepts the calls on the draft, the outputs of the draft are
    the destination outputs as [getOutputs] returns them, followed by one
    change output paying [fromAddress] the remainder exactly when the
    remainder exceeds [DUST_THRESHOLD]; with a remainder at or below the
    threshold (zero included) only the destination outputs are added.
    With a [getOutputs] that keeps the addresses of [paymentData] in their
    order, the outputs pay the addresses of [paymentData] in the caller's
    order, the change address last.  In both cases no error comes of it:
    once the draft is built, the transaction is posted and the call ends
    as the broadcast does. *)
Theorem sendFromOneAddress_change_output this args s unspentOutputs t :
  0 <= DUST_THRESHOLD ->
  valid_private_key (privateKey args) = true ->
  unspent_outputs (fromAddress args) = Some unspentOutputs ->
  0 <= remainingSatoshis (selected_inputs this args unspentOutputs) ->
  assemble this args unspentOutputs = Some t ->
  tx (snd (sendFromOneAddress this args s)) = Some t /\
  tb_outputs t =
    map output_pair (getOutputs (paymentData args)) ++
    (if remainingSatoshis (selected_inputs this args unspentOutputs) >? DUST_THRESHOLD
     then [(fromAddress args, remainingSatoshis (selected_inputs this args unspentOutputs))]
     else []) /\
  (map out_address (getOutputs (paymentData args)) = map pay_address (paymentData args) ->
   map fst (tb_outputs t) =
     map pay_address (paymentData args) ++
     (if remainingSatoshis (selected_inputs this args unspentOutputs) >? DUST_THRESHOLD
      then [fromAddress args] else [])) /\
  (forall signedTx,
     build_toHex t = Some signedTx ->
     fst (sendFromOneAddress this args s) = broadcast_result signedTx /\
     last (requests (snd (sendFromOneAddress this args s))) = Some (POST SEND_TX signedTx)).
Proof.
  intros Hdust Hkey Hfetch Hpos Hasm.
  pose proof (send_past_balance_check this args s unspentOutputs Hkey Hfetch Hpos) as Hrun.
  rewrite Hasm in Hrun.
  assert (Houtputs : tb_outputs t =
            map output_pair (getOutputs (paymentData args)) ++
            (if remainingSatoshis (selected_inputs this args unspentOutputs) >? DUST_THRESHOLD
             then [(fromAddress args,
                    remainingSatoshis (selected_inputs this args unspentOutputs))]
             else [])).
  { rewrite (assemble_final_draft _ _ _ _ Hasm).
    unfold final_draft, built_draft, change_outputs, change_output. cbn [tb_outputs].
    rewrite map_app. f_equal.
    set (remaining := remainingSatoshis _) in *.
    unfold truthy.
    destruct (remaining >? DUST_THRESHOLD) eqn:Egt.
    + assert (remaining <> 0) by lia.
      destruct (remaining =? 0) eqn:E0; [apply Z.eqb_eq in E0; lia|]. reflexivity.
    + now rewrite andb_false_r. }
  split; [|split; [exact Houtputs|split]].
  - destruct (build_toHex t) as [signedTx|]; now rewrite Hrun.
  - intros Horder. rewrite Houtputs, map_app, map_map.
    change (fun o => fst (output_pair o)) with out_address.
    rewrite Horder. f_equal. now destruct (_ >? _).
  - intros signedTx Hbuild. rewrite Hbuild in Hrun. rewrite Hrun. cbn [fst snd requests].
    split; [reflexivity | now rewrite last_snoc].
Qed.

(** C4, amended.  Once the library has built the transaction, the
    transaction has been posted and the provider has answered with a body
    object, the result depends on the status alone: status 200 is reported
    as success with the link [VIEW_TX(txid)], whether or not the body
    holds a transaction id, and any other status is the
    [BROADCAST_ERROR] object. *)
Theorem sendFromOneAddress_broadcast_status this args s unspentOutputs signedTx res body :
  valid_private_key (privateKey args) = true ->
  unspent_outputs (fromAddress args) = Some unspentOutputs ->
  0 <= remainingSatoshis (selected_inputs this args unspentOutputs) ->
  signed_transaction this args unspentOutputs = Some signedTx ->
  send_tx signedTx = Some res ->
  data res = Some body ->
  fst (sendFromOneAddress this args s) =
    Returned (if status res =? 200
              then SendOk (VIEW_TX (body_txid body))
              else asErrorObject BROADCAST_ERROR) /\
  last (requests (snd (sendFromOneAddress this args s))) = Some (POST SEND_TX signedTx).
Proof.
  intros Hkey Hfetch Hpos Hsigned Hsent Hbody.
  rewrite (send_posted _ _ _ _ _ Hkey Hfetch Hpos Hsigned). cbn [fst snd requests].
  unfold broadcast_result. rewrite Hsent, Hbody.
  split; [reflexivity | now rewrite last_snoc].
Qed.

(** C9, amended.  With a private key the library rejects, the call is
    rejected with the library's exception: no error object is returned, and
    nothing has been done yet (no draft, no request). *)
Theorem sendFromOneAddress_malformed_key_throws this args s :
  valid_private_key (privateKey args) = false ->
  sendFromOneAddress this args s = (Thrown (InvalidPrivateKey (privateKey args)), s) /\
  forall r s', sendFromOneAddress this args s <> (Returned r, s').
Proof.
  intros Hkey. rewrite (send_invalid_key _ _ _ Hkey). split; [reflexivity|].
  intros r s' E. discriminate E.
Qed.

End SendClaims.

(** ** [generateAddressFromSeed] and [fetchAddressDetails] *)

Section RotationProperties.
Context {Cst : Constants} {Utl : LibUtils} {Cut : CoinUtils} {Lib : BitcoinLib} {Prv : Provider}.
Implicit Types (this : BitcoinBlockchainManager) (s : state).

Lemma generate_returned this mnemonic account changeChain n s publicKey privateKey :
  derivePath (fromSeed (mnemonicToSeedSync mnemonic))
    {| path_account := account; path_change := changeChain; path_index := n + 1 |}
    = Some (publicKey, privateKey) ->
  generateAddressFromSeed this mnemonic account changeChain n s =
    (Returned {| ad_address := p2pkh publicKey NETWORK;
                 ad_index := n + 1;
                 ad_privateKey := privateKey |},
     log_derivation {| path_account := account; path_change := changeChain;
                       path_index := n + 1 |} s).
Proof.
  intros Hd. unfold generateAddressFromSeed, node_derivePath.
  rewrite Hd. reflexivity.
Qed.

Lemma generate_thrown this mnemonic account changeChain n s :
  derivePath (fromSeed (mnemonicToSeedSync mnemonic))
    {| path_account := account; path_change := changeChain; path_index := n + 1 |}
    = None ->
  generateAddressFromSeed this mnemonic account changeChain n s =
    (Thrown DerivationFailed,
     log_derivation {| path_account := account; path_change := changeChain;
                       path_index := n + 1 |} s).
Proof.
  intros Hd. unfold generateAddressFromSeed, node_derivePath.
  rewrite Hd. reflexivity.
Qed.

(** Whatever it answers, [fetchAddressDetails] issues exactly one request. *)
Lemma fetch_state this address s o s1 :
  fetchAddressDetails this address s = (o, s1) ->
  s1 = log_request (GET (FULL_ADDRESS address)) s.
Proof.
  unfold fetchAddressDetails, api_call, lift, mbind, M_bind, bind, modify.
  destruct (full_address address) as [res|]; cbn.
  - destruct (formatTransactionResponse (res_txs res) address); cbn;
      unfold mret, M_ret, ret; congruence.
  - unfold mthrow, M_throw, throw. congruence.
Qed.

Lemma address_data_eta (n : address_data) :
  {| ad_address := ad_address n; ad_index := ad_index n;
     ad_privateKey := ad_privateKey n |} = n.
Proof. now destruct n. Qed.

(** The sweep branch: with a balance that is neither in [(0, DEFAULT_FEE]]
    nor zero, [refreshAddress] derives the next address, calls
    [sendFromOneAddress] with [sweep_args] and, if that call returns
    anything at all, returns the new record. *)
Lemma refreshAddress_sweeps this w a s d s1 n s2 :
  fetchAddressDetails this (address a) s = (Returned d, s1) ->
  ~ (0 < balance d <= DEFAULT_FEE) ->
  balance d <> 0 ->
  generateAddressFromSeed this (seed w) ACCOUNT_BASE CHANGE_CHAIN_EXTERNAL
    (address_index w) s1 = (Returned n, s2) ->
  refreshAddress this w a s =
    (sendFromOneAddress this
       (sweep_args (address a) (private_key a) (ad_address n) (balance d))
     ≫= fun _ => mret n) s2.
Proof.
  intros Hfetch Hsmall Hnz Hgen. unfold refreshAddress.
  erewrite bind_returned by exact Hfetch. cbv zeta.
  destruct ((balance d >? 0) && (balance d <=? DEFAULT_FEE)) eqn:E.
  { apply andb_true_iff in E as [E1 E2].
    apply Z.gtb_lt in E1. apply Z.leb_le in E2. exfalso. apply Hsmall. lia. }
  erewrite bind_returned by exact Hgen.
  destruct (balance d =? 0) eqn:E0; [apply Z.eqb_eq in E0; contradiction|].
  cbn [negb]. rewrite address_data_eta.
  unfold mbind, M_bind, bind.
  destruct (sendFromOneAddress this _ s2) as [[r|e] s3]; reflexivity.
Qed.

(** What the sweep answers does not reach the caller: a returned object,
    error or not, is dropped; only an exception gets through. *)
Lemma refreshAddress_drops_sweep_result this w a s d s1 n s2 :
  fetchAddressDetails this (address a) s = (Returned d, s1) ->
  ~ (0 < balance d <= DEFAULT_FEE) ->
  balance d <> 0 ->
  generateAddressFromSeed this (seed w) ACCOUNT_BASE CHANGE_CHAIN_EXTERNAL
    (address_index w) s1 = (Returned n, s2) ->
  forall s3,
    (forall r,
       sendFromOneAddress this
         (sweep_args (address a) (private_key a) (ad_address n) (balance d)) s2
         = (Returned r, s3) ->
       refreshAddress this w a s = (Returned n, s3)) /\
    (forall e,
       sendFromOneAddress this
         (sweep_args (address a) (private_key a) (ad_address n) (balance d)) s2
         = (Thrown e, s3) ->
       refreshAddress this w a s = (Thrown e, s3)).
Proof.
  intros Hfetch Hsmall Hnz Hgen s3.
  rewrite (refreshAddress_sweeps _ _ _ _ _ _ _ _ Hfetch Hsmall Hnz Hgen).
  split.
  - intros r Hsend. now erewrite bind_returned by exact Hsend.
  - intros e Hsend. now erewrite bind_thrown by exact Hsend.
Qed.

(** The inner [forEach] in closed form: when it does not throw, the amount
    has grown by the value of every output that lists the address, and the
    receiver is set as soon as one does. *)
Lemma addOutputs_returned address outputs : forall acc,
  Forall (fun o => is_Some (o_addresses o)) outputs ->
  addOutputs address outputs acc =
    Returned (fst acc + received_by address outputs,
              if existsb (lists address) outputs then Some address else snd acc).
Proof.
  induction outputs as [|o outputs IH]; intros [total receiver] Hall.
  - cbn. do 2 f_equal. lia.
  - inversion Hall as [|? ? [addresses Ho] Hrest]; subst.
    cbn [addOutputs existsb]. unfold received_by. cbn [foldr].
    fold (received_by address outputs).
    assert (Hl : lists address o = pays address addresses)
      by (unfold lists; now rewrite Ho).
    rewrite Ho, Hl.
    destruct (pays address addresses); rewrite (IH _ Hrest); cbn [fst snd orb].
    + do 2 f_equal; [lia|]. now destruct (existsb _ outputs).
    + reflexivity.
Qed.

Lemma addOutputs_thrown address outputs : forall acc,
  ~ Forall (fun o => is_Some (o_addresses o)) outputs ->
  addOutputs address outputs acc = Thrown TypeError.
Proof.
  induction outputs as [|o outputs IH]; intros acc Hbad.
  - exfalso. apply Hbad. constructor.
  - cbn [addOutputs]. destruct (o_addresses o) as [addresses|] eqn:Ho; [|reflexivity].
    apply IH. intros Hrest. apply Hbad. constructor; [rewrite Ho; eauto | exact Hrest].
Qed.

(** A provider transaction the loop can format gives this row. *)
Lemma formatTransaction_row address t inputs input0 senders outputs :
  tx_inputs t = Some inputs ->
  inputs !! 0%nat = Some input0 ->
  in_addresses input0 = Some senders ->
  tx_outputs t = Some outputs ->
  Forall (fun o => is_Some (o_addresses o)) outputs ->
  formatTransaction address t =
    Returned {| f_amount := satoshiToFloat (received_by address outputs);
                f_created_date := getTimestamp (received t);
                f_fee := fees t;
                f_receiver_address :=
                  if existsb (lists address) outputs then Some address else None;
                f_sender_address := senders !! 0%nat;
                f_status := match confirmations t with
                            | Some c => if truthy c then 1 else 0
                            | None => 0
                            end;
                f_transaction_id := hash t |}.
Proof.
  intros Hin H0 Hsenders Hout Hall. unfold formatTransaction.
  rewrite Hin, H0, Hsenders, Hout, (addOutputs_returned _ _ _ Hall). reflexivity.
Qed.

(** [formatTransaction] returns exactly on the transactions that are
    [formattable], and throws a [TypeError] on the others. *)
Lemma formatTransaction_cases address t :
  (formattable t /\ exists f, formatTransaction address t = Returned f) \/
  (~ formattable t /\ formatTransaction address t = Thrown TypeError).
Proof.
  unfold formattable, formatTransaction.
  destruct (tx_inputs t) as [inputs|] eqn:Hin.
  2: { right. split; [|reflexivity]. intros [(i & i0 & sd & [=] & _) _]. }
  destruct (inputs !! 0%nat) as [input0|] eqn:H0.
  2: { right. split; [|reflexivity]. intros [(i & i0 & sd & [= <-] & E & _) _]. congruence. }
  destruct (in_addresses input0) as [senders|] eqn:Hsenders.
  2: { right. split; [|reflexivity].
       intros [(i & i0 & sd & [= <-] & E & E') _]. congruence. }
  destruct (tx_outputs t) as [outputs|] eqn:Hout.
  2: { right. split; [|reflexivity]. intros [_ (o & [=] & _)]. }
  destruct (decide (Forall (fun o => is_Some (o_addresses o)) outputs)) as [Hall|Hbad].
  - left. rewrite (addOutputs_returned _ _ _ Hall). split; eauto 10.
  - right. rewrite (addOutputs_thrown _ _ _ Hbad). split; [|reflexivity].
    intros [_ (o & [= <-] & Hall)]. contradiction.
Qed.

End RotationProperties.

(** ** Claims about [generateAddressFromSeed] and [refreshAddress] *)

Section RotationClaims.
Context {Cst : Constants} {Utl : LibUtils} {Cut : CoinUtils} {Lib : BitcoinLib} {Prv : Provider}.
Implicit Types (this : BitcoinBlockchainManager) (s : state).

(** C8.  [generateAddressFromSeed] answers the same for the same
    [(mnemonicSeed, account, changeChain, numberOfAddresses)], whatever the
    manager instance and whatever has happened before; a record it returns
    has index [numberOfAddresses + 1] (index 1 for 0); and it does return
    that record, with the address and private key of the derived node,
    whenever the library derives the path. *)
Theorem generateAddressFromSeed_deterministic_next_index
    this this' mnemonic account changeChain n s s' :
  fst (generateAddressFromSeed this mnemonic account changeChain n s) =
    fst (generateAddressFromSeed this' mnemonic account changeChain n s') /\
  (forall r, fst (generateAddressFromSeed this mnemonic account changeChain n s) = Returned r ->
             ad_index r = n + 1) /\
  (forall publicKey privateKey,
     derivePath (fromSeed (mnemonicToSeedSync mnemonic))
       {| path_account := account; path_change := changeChain; path_index := n + 1 |}
       = Some (publicKey, privateKey) ->
     fst (generateAddressFromSeed this mnemonic account changeChain n s) =
       Returned {| ad_address := p2pkh publicKey NETWORK;
                   ad_index := n + 1;
                   ad_privateKey := privateKey |}).
Proof.
  destruct (derivePath (fromSeed (mnemonicToSeedSync mnemonic))
              {| path_account := account; path_change := changeChain;
                 path_index := n + 1 |}) as [[publicKey privateKey]|] eqn:Hd.
  - rewrite !(generate_returned _ _ _ _ _ _ _ _ Hd). cbn [fst].
    repeat split.
    + intros r [= <-]. reflexivity.
    + intros pk sk [= <- <-]. reflexivity.
  - rewrite !(generate_thrown _ _ _ _ _ _ Hd). cbn [fst].
    repeat split; intros; discriminate.
Qed.

(** C5.  When the fetched balance [b] satisfies [0 < b <= DEFAULT_FEE]
    (the bound included), [refreshAddress] returns the address and private
    key it was given; no address is derived, no draft is created and the
    balance query is the only request, so nothing is swept. *)
Theorem refreshAddress_below_fee_keeps_address this w a s d s1 :
  fetchAddressDetails this (address a) s = (Returned d, s1) ->
  0 < balance d <= DEFAULT_FEE ->
  exists r,
    refreshAddress this w a s = (Returned r, s1) /\
    ad_address r = address a /\
    ad_privateKey r = private_key a /\
    derivations s1 = derivations s /\
    tx s1 = tx s /\
    requests s1 = requests s ++ [GET (FULL_ADDRESS (address a))].
Proof.
  intros Hfetch [Hlo Hhi].
  pose proof (fetch_state _ _ _ _ _ Hfetch) as ->.
  eexists. split.
  - unfold refreshAddress. erewrite bind_returned by exact Hfetch. cbv zeta.
    apply Z.gtb_lt in Hlo. apply Z.leb_le in Hhi. rewrite Hlo, Hhi. reflexivity.
  - repeat split.
Qed.

(** C10.  In the small-balance branch the returned record is the supplied
    address and private key together with the wallet's [address_index]; no
    other property of the address record has any influence; and the state
    differs from the initial one by the balance query alone (no derivation,
    no draft, no POST). *)
Theorem refreshAddress_below_fee_index_from_wallet this w a s d s1 :
  fetchAddressDetails this (address a) s = (Returned d, s1) ->
  0 < balance d <= DEFAULT_FEE ->
  refreshAddress this w a s =
    (Returned {| ad_address := address a;
                 ad_index := address_index w;
                 ad_privateKey := private_key a |},
     log_request (GET (FULL_ADDRESS (address a))) s) /\
  (forall props,
     refreshAddress this w
       {| address := address a; private_key := private_key a; address_props := props |} s
     = refreshAddress this w a s) /\
  List.filter is_POST (requests s1) = List.filter is_POST (requests s).
Proof.
  intros Hfetch [Hlo Hhi].
  pose proof (fetch_state _ _ _ _ _ Hfetch) as ->.
  assert (Hrun : forall a', address a' = address a -> private_key a' = private_key a ->
            refreshAddress this w a' s =
            (Returned {| ad_address := address a; ad_index := address_index w;
                         ad_privateKey := private_key a |},
             log_request (GET (FULL_ADDRESS (address a))) s)).
  { intros a' Ea Ek. unfold refreshAddress. rewrite Ea, Ek.
    erewrite bind_returned by exact Hfetch. cbv zeta.
    apply Z.gtb_lt in Hlo. apply Z.leb_le in Hhi. rewrite Hlo, Hhi. reflexivity. }
  split; [now apply Hrun|]. split.
  - intros props. rewrite (Hrun a), Hrun; reflexivity.
  - cbn. rewrite List.filter_app. cbn. now rewrite app_nil_r.
Qed.

(** C6.  When the fetched balance is exactly 0, [refreshAddress] returns
    the record of the next address (index [address_index + 1]) as derived
    from the wallet's seed; the only request is the balance query and no
    draft is created: nothing is swept or broadcast. *)
Theorem refreshAddress_zero_balance this w a s d s1 publicKey privateKey :
  fetchAddressDetails this (address a) s = (Returned d, s1) ->
  balance d = 0 ->
  derivePath (fromSeed (mnemonicToSeedSync (seed w)))
    {| path_account := ACCOUNT_BASE; path_change := CHANGE_CHAIN_EXTERNAL;
       path_index := address_index w + 1 |} = Some (publicKey, privateKey) ->
  exists s2,
    refreshAddress this w a s =
      (Returned {| ad_address := p2pkh publicKey NETWORK;
                   ad_index := address_index w + 1;
                   ad_privateKey := privateKey |}, s2) /\
    requests s2 = requests s ++ [GET (FULL_ADDRESS (address a))] /\
    List.filter is_POST (requests s2) = List.filter is_POST (requests s) /\
    tx s2 = tx s.
Proof.
  intros Hfetch Hzero Hd.
  pose proof (fetch_state _ _ _ _ _ Hfetch) as ->.
  eexists. split.
  - unfold refreshAddress. erewrite bind_returned by exact Hfetch. cbv zeta.
    rewrite Hzero. cbn [Z.gtb Z.compare andb Z.eqb negb].
    erewrite bind_returned by (apply generate_returned; exact Hd).
    reflexivity.
  - cbn. repeat split. rewrite List.filter_app. cbn. now rewrite app_nil_r.
Qed.

(** C2, amended.  [refreshAddress] computes the sweep amount
    [balance - DEFAULT_FEE] on integer satoshis and hands it to
    [sendFromOneAddress] converted by [satoshiToFloat]; and a row of
    [formatTransactionResponse] carries [satoshiToFloat] of the integer sum
    of the output values paying the address, the fee staying in satoshis. *)
Theorem amounts_converted_by_satoshiToFloat this w a s d s1 n s2 :
  fetchAddressDetails this (address a) s = (Returned d, s1) ->
  ~ (0 < balance d <= DEFAULT_FEE) ->
  balance d <> 0 ->
  generateAddressFromSeed this (seed w) ACCOUNT_BASE CHANGE_CHAIN_EXTERNAL
    (address_index w) s1 = (Returned n, s2) ->
  (refreshAddress this w a s =
     (sendFromOneAddress this
        (sweep_args (address a) (private_key a) (ad_address n) (balance d))
      ≫= fun _ => mret n) s2 /\
   paymentData (sweep_args (address a) (private_key a) (ad_address n) (balance d)) =
     [{| pay_address := ad_address n;
         pay_amount := Decimal (coin_value (balance d - DEFAULT_FEE)) |}]) /\
  (forall address t f,
     formatTransaction address t = Returned f ->
     exists outputs,
       tx_outputs t = Some outputs /\
       f_amount f = Decimal (coin_value (received_by address outputs)) /\
       f_fee f = fees t).
Proof.
  intros Hfetch Hsmall Hnz Hgen. split.
  - split; [now apply refreshAddress_sweeps with (d := d) (s1 := s1)|reflexivity].
  - intros addr t f Hrow.
    destruct (formatTransaction_cases addr t) as [[Hok _]|[_ Hthrown]]; [|congruence].
    destruct Hok as [(ins & input0 & senders & Hin & H0 & Hsenders) (outputs & Hout & Hall)].
    rewrite (formatTransaction_row addr t _ _ _ _ Hin H0 Hsenders Hout Hall) in Hrow.
    injection Hrow as <-. exists outputs. now repeat split.
Qed.

End RotationClaims.

(** ** The selection as the spec words it *)

Section Selection.
Import Sample.

(** While the accumulated value stays below the target every output is
    taken. *)
Lemma accumulate_all utxos target : forall accumulated,
  Forall (fun u => 0 <= utxo_value u) utxos ->
  accumulated + total_value utxos < target ->
  accumulate utxos target accumulated = (utxos, accumulated + total_value utxos).
Proof.
  assert (Hcons : forall u rest, total_value (u :: rest) = utxo_value u + total_value rest)
    by reflexivity.
  induction utxos as [|u rest IH]; intros accumulated Hnonneg Hlt.
  - cbn. f_equal. lia.
  - inversion Hnonneg as [|? ? Hu Hrest]; subst.
    assert (0 <= total_value rest).
    { clear -Hrest Hcons. induction Hrest as [|v vs Hv _ IHvs]; [cbn; lia|].
      rewrite Hcons. lia. }
    rewrite Hcons in *. cbn [accumulate].
    destruct (accumulated >=? target) eqn:E; [lia|].
    rewrite IH by (trivial; lia). f_equal. lia.
Qed.

(** Outputs worth less than the target leave a negative remainder. *)
Lemma spec_getInputs_insufficient utxos target :
  Forall (fun u => 0 <= utxo_value u) utxos ->
  total_value utxos < target ->
  spec_getInputs utxos target =
    {| inputs := utxos; remainingSatoshis := total_value utxos - target |} /\
  remainingSatoshis (spec_getInputs utxos target) < 0.
Proof.
  intros Hnonneg Hlt. unfold spec_getInputs.
  rewrite accumulate_all by (trivial; lia). cbn. split; [reflexivity | lia].
Qed.

(** The remainder is never below what was accumulated minus the target,
    and the chosen inputs are a prefix of the provider's list. *)
Lemma accumulate_prefix utxos target : forall accumulated,
  exists rest,
    utxos = fst (accumulate utxos target accumulated) ++ rest /\
    snd (accumulate utxos target accumulated) =
      accumulated + total_value (fst (accumulate utxos target accumulated)).
Proof.
  induction utxos as [|u utxos IH]; intros accumulated; cbn [accumulate].
  - exists []. cbn. split; [reflexivity | lia].
  - destruct (accumulated >=? target).
    + exists (u :: utxos). cbn. split; [reflexivity | lia].
    + destruct (IH (accumulated + utxo_value u)) as (rest & Hpre & Hsum).
      destruct (accumulate utxos target (accumulated + utxo_value u)) as [chosen total].
      cbn [fst snd] in *. exists rest. split; [cbn; congruence|].
      change (total_value (u :: chosen)) with (utxo_value u + total_value chosen). lia.
Qed.

(** With that selection, unspent outputs worth less than the target end
    the send with [INSUFFICIENT_FUNDS]. *)
Lemma send_insufficient_total {Cst : Constants} {Lib : BitcoinLib} {Prv : Provider}
    (this : BitcoinBlockchainManager) (args : send_args) (s : state) unspentOutputs :
  valid_private_key (privateKey args) = true ->
  unspent_outputs (fromAddress args) = Some unspentOutputs ->
  Forall (fun u => 0 <= utxo_value u) unspentOutputs ->
  total_value unspentOutputs <
    spec_getSatoshisToSend (spec_getOutputs (paymentData args))
                           (default (defaultFee this) (fee args)) ->
  fst (sendFromOneAddress (Cut := coin_utils) this args s)
    = Returned (asErrorObject INSUFFICIENT_FUNDS).
Proof.
  intros Hkey Hfetch Hnonneg Hlt.
  erewrite (send_insufficient (Cut := coin_utils)) by
    (try eassumption; apply spec_getInputs_insufficient; assumption).
  reflexivity.
Qed.

End Selection.

(** ** The claims at concrete inputs *)

Section Examples.
#[local] Existing Instance Sample.constants.
#[local] Existing Instance Sample.utils.
#[local] Existing Instance Sample.coin_utils.
#[local] Existing Instance Sample.lib.

(** The spec's scenario: outputs of 50000 and 30000, target 60000, dust
    threshold 1000: both inputs are used and 20000 comes back as change. *)
Example scenario_change_of_20000 :
  getInputs Sample.spendable 60000 =
    {| inputs := Sample.spendable; remainingSatoshis := 20000 |} /\
  tb_outputs (final_draft Sample.this Sample.payment_args Sample.spendable)
    = [("1A1zP1eP5QGefi2DMPTfTL5SLmv7DivfNa", 50000);
       ("1BgGZ9tcN4rm9KBzDn7KprQz87SZ26SAMH", 20000)]%string /\
  assemble Sample.this Sample.payment_args Sample.spendable
    = Some (final_draft Sample.this Sample.payment_args Sample.spendable).
Proof. repeat split. Qed.

(** A remainder of 500, under the dust threshold, is left to the fee. *)
Example scenario_dust_forfeited :
  fst (sendFromOneAddress
         (Prv := Sample.provider 80000 (Some Sample.spendable) (Some Sample.accepted))
         Sample.this Sample.payment_dust_args initial_state)
    = Returned (SendOk (VIEW_TX (Some "cc"%string))) /\
  tx (snd (sendFromOneAddress
             (Prv := Sample.provider 80000 (Some Sample.spendable) (Some Sample.accepted))
             Sample.this Sample.payment_dust_args initial_state))
    = Some (final_draft Sample.this Sample.payment_dust_args Sample.spendable) /\
  tb_outputs (final_draft Sample.this Sample.payment_dust_args Sample.spendable)
    = [("1A1zP1eP5QGefi2DMPTfTL5SLmv7DivfNa", 50000)]%string /\
  remainingSatoshis (selected_inputs Sample.this Sample.payment_dust_args Sample.spendable)
    = 500.
Proof. repeat split. Qed.

(** Strings the library takes for neither a transaction id nor an address
    never reach the provider: the library throws on the first of them. *)
Example scenario_library_rejects :
  sendFromOneAddress
    (Prv := Sample.provider 80000 (Some Sample.two_utxos) (Some Sample.accepted))
    Sample.this Sample.pay_args initial_state
  = (Thrown TransactionError,
     {| requests := [GET (UNSPENT_OUTPUTS "old")];
        derivations := [];
        tx := Some (empty_builder "bitcoin") |}) /\
  fst (sendFromOneAddress
         (Prv := Sample.provider 80000 (Some Sample.spendable) (Some Sample.accepted))
         Sample.this Sample.bad_destination_args initial_state)
    = Thrown TransactionError.
Proof. repeat split. Qed.

Lemma spec_getOutputs_keeps_order (paymentData : list payment) :
  map out_address (Sample.spec_getOutputs paymentData) = map pay_address paymentData.
Proof. unfold Sample.spec_getOutputs. rewrite map_map. reflexivity. Qed.

Lemma sendFromOneAddress_insufficient_funds_witness :
  exists s' t,
    sendFromOneAddress (Prv := Sample.provider 80000 (Some Sample.one_small_utxo) None)
      Sample.this Sample.pay_args initial_state
      = (Returned (asErrorObject INSUFFICIENT_FUNDS), s') /\
    tx s' = Some t /\ tb_inputs t = [] /\ tb_outputs t = [] /\ tb_signed t = [] /\
    requests s' = requests initial_state ++ [GET (UNSPENT_OUTPUTS "old")] /\
    List.filter is_POST (requests s') = List.filter is_POST (requests initial_state).
Proof.
  apply (sendFromOneAddress_insufficient_funds
           (Prv := Sample.provider 80000 (Some Sample.one_small_utxo) None)
           Sample.this Sample.pay_args initial_state Sample.one_small_utxo).
  - reflexivity.
  - reflexivity.
  - vm_compute. reflexivity.
Defined.

(** Two payments and a change of 20000: the outputs pay the two
    destinations in the caller's order, then the sender. *)
Lemma sendFromOneAddress_change_output_witness :
  exists t,
    tx (snd (sendFromOneAddress
               (Prv := Sample.provider 80000 (Some Sample.spendable) (Some Sample.accepted))
               Sample.this Sample.two_payments_args initial_state)) = Some t /\
    tb_outputs t = [("12c6DSiU4Rq3P4ZxziKxzrL5LmMBrzjrJX", 20000);
                    ("1A1zP1eP5QGefi2DMPTfTL5SLmv7DivfNa", 30000);
                    ("1BgGZ9tcN4rm9KBzDn7KprQz87SZ26SAMH", 20000)]%string /\
    map fst (tb_outputs t) = ["12c6DSiU4Rq3P4ZxziKxzrL5LmMBrzjrJX";
                              "1A1zP1eP5QGefi2DMPTfTL5SLmv7DivfNa";
                              "1BgGZ9tcN4rm9KBzDn7KprQz87SZ26SAMH"]%string.
Proof.
  destruct (sendFromOneAddress_change_output
              (Prv := Sample.provider 80000 (Some Sample.spendable) (Some Sample.accepted))
              Sample.this Sample.two_payments_args initial_state Sample.spendable
              (final_draft Sample.this Sample.two_payments_args Sample.spendable))
    as (Htx & Hout & Horder & _).
  - vm_compute. discriminate.
  - reflexivity.
  - reflexivity.
  - vm_compute. discriminate.
  - reflexivity.
  - eexists. split; [exact Htx|]. split; [exact Hout|].
    exact (Horder (spec_getOutputs_keeps_order _)).
Defined.

(** C4 as stated fails: the library builds the transaction, the provider
    answers the POST with status 200 and a body without a transaction id,
    and the call reports success. *)
Lemma broadcast_without_txid_reported_as_success :
  status Sample.no_txid = 200 /\
  data Sample.no_txid = Some {| body_txid := None |} /\
  (exists signedTx,
     last (requests (snd (sendFromOneAddress
                            (Prv := Sample.provider 80000 (Some Sample.spendable)
                                      (Some Sample.no_txid))
                            Sample.this Sample.payment_args initial_state)))
       = Some (POST SEND_TX signedTx)) /\
  fst (sendFromOneAddress
         (Prv := Sample.provider 80000 (Some Sample.spendable) (Some Sample.no_txid))
         Sample.this Sample.payment_args initial_state)
    = Returned (SendOk (VIEW_TX None)) /\
  fst (sendFromOneAddress
         (Prv := Sample.provider 80000 (Some Sample.spendable) (Some Sample.no_txid))
         Sample.this Sample.payment_args initial_state)
    <> Returned (asErrorObject BROADCAST_ERROR).
Proof.
  split; [reflexivity|]. split; [reflexivity|]. split; [eexists; reflexivity|].
  split; [reflexivity|]. vm_compute. discriminate.
Qed.

Lemma sendFromOneAddress_broadcast_status_witness :
  fst (sendFromOneAddress
         (Prv := Sample.provider 80000 (Some Sample.spendable) (Some Sample.no_txid))
         Sample.this Sample.payment_args initial_state)
    = Returned (SendOk (VIEW_TX None)) /\
  fst (sendFromOneAddress
         (Prv := Sample.provider 80000 (Some Sample.spendable) (Some Sample.created))
         Sample.this Sample.payment_args initial_state)
    = Returned (asErrorObject BROADCAST_ERROR).
Proof.
  split.
  - refine (proj1 (sendFromOneAddress_broadcast_status
             (Prv := Sample.provider 80000 (Some Sample.spendable) (Some Sample.no_txid))
             Sample.this Sample.payment_args initial_state Sample.spendable _
             Sample.no_txid {| body_txid := None |} _ _ _ _ _ _)).
    + reflexivity.
    + reflexivity.
    + vm_compute. discriminate.
    + reflexivity.
    + reflexivity.
    + reflexivity.
  - refine (proj1 (sendFromOneAddress_broadcast_status
             (Prv := Sample.provider 80000 (Some Sample.spendable) (Some Sample.created))
             Sample.this Sample.payment_args initial_state Sample.spendable _
             Sample.created {| body_txid := Some "cc"%string |} _ _ _ _ _ _)).
    + reflexivity.
    + reflexivity.
    + vm_compute. discriminate.
    + reflexivity.
    + reflexivity.
    + reflexivity.
Defined.

(** C9 as stated fails: with the key ["zz"] the call does not return any
    result object, it throws. *)
Lemma malformed_key_returns_no_typed_result :
  valid_private_key (privateKey Sample.bad_key_args) = false /\
  sendFromOneAddress
    (Prv := Sample.provider 80000 (Some Sample.two_utxos) (Some Sample.accepted))
    Sample.this Sample.bad_key_args initial_state
    = (Thrown (InvalidPrivateKey "zz"), initial_state) /\
  ~ exists r s',
      sendFromOneAddress
        (Prv := Sample.provider 80000 (Some Sample.two_utxos) (Some Sample.accepted))
        Sample.this Sample.bad_key_args initial_state = (Returned r, s').
Proof.
  repeat split. intros (r & s' & E). vm_compute in E. discriminate E.
Qed.

Lemma sendFromOneAddress_malformed_key_throws_witness :
  sendFromOneAddress
    (Prv := Sample.provider 80000 (Some Sample.two_utxos) (Some Sample.accepted))
    Sample.this Sample.bad_key_args initial_state
    = (Thrown (InvalidPrivateKey "zz"), initial_state) /\
  forall r s',
    sendFromOneAddress
      (Prv := Sample.provider 80000 (Some Sample.two_utxos) (Some Sample.accepted))
      Sample.this Sample.bad_key_args initial_state <> (Returned r, s').
Proof.
  apply (sendFromOneAddress_malformed_key_throws
           (Prv := Sample.provider 80000 (Some Sample.two_utxos) (Some Sample.accepted))
           Sample.this Sample.bad_key_args initial_state).
  reflexivity.
Defined.

Lemma generateAddressFromSeed_deterministic_next_index_witness :
  fst (generateAddressFromSeed Sample.this "abandon about" 0 0 0 initial_state)
    = Returned {| ad_address := "addr/pub/abandon about";
                  ad_index := 1;
                  ad_privateKey := "priv/abandon about" |}.
Proof.
  exact (proj2 (proj2 (generateAddressFromSeed_deterministic_next_index
                         Sample.this Sample.this "abandon about" 0 0 0
                         initial_state initial_state))
           "pub/abandon about" "priv/abandon about" eq_refl).
Defined.

(** The boundary: a balance of exactly [DEFAULT_FEE]. *)
Lemma refreshAddress_below_fee_keeps_address_witness :
  exists r,
    refreshAddress (Prv := Sample.provider 10000 (Some Sample.two_utxos) (Some Sample.accepted))
      Sample.this Sample.the_wallet Sample.the_address initial_state
      = (Returned r, log_request (GET (FULL_ADDRESS "old")) initial_state) /\
    ad_address r = "old" /\
    ad_privateKey r = Sample.key /\
    derivations (log_request (GET (FULL_ADDRESS "old")) initial_state) = [] /\
    tx (log_request (GET (FULL_ADDRESS "old")) initial_state) = None /\
    requests (log_request (GET (FULL_ADDRESS "old")) initial_state)
      = [GET (FULL_ADDRESS "old")].
Proof.
  apply (refreshAddress_below_fee_keeps_address
           (Prv := Sample.provider 10000 (Some Sample.two_utxos) (Some Sample.accepted))
           Sample.this Sample.the_wallet Sample.the_address initial_state
           {| balance := 10000; transactions := [] |}).
  - reflexivity.
  - vm_compute. split; [reflexivity | discriminate].
Defined.

(** The address record carries ["index" := 7]; the result has the
    wallet's index 3. *)
Lemma refreshAddress_below_fee_index_from_wallet_witness :
  address_props Sample.the_address !! "index"%string = Some 7 /\
  refreshAddress (Prv := Sample.provider 10000 (Some Sample.two_utxos) (Some Sample.accepted))
    Sample.this Sample.the_wallet Sample.the_address initial_state
    = (Returned {| ad_address := "old"; ad_index := 3; ad_privateKey := Sample.key |},
       log_request (GET (FULL_ADDRESS "old")) initial_state).
Proof.
  split; [reflexivity|].
  apply (refreshAddress_below_fee_index_from_wallet
           (Prv := Sample.provider 10000 (Some Sample.two_utxos) (Some Sample.accepted))
           Sample.this Sample.the_wallet Sample.the_address initial_state
           {| balance := 10000; transactions := [] |}
           (log_request (GET (FULL_ADDRESS "old")) initial_state)).
  - reflexivity.
  - vm_compute. split; [reflexivity | discriminate].
Defined.

Lemma refreshAddress_zero_balance_witness :
  exists s2,
    refreshAddress (Prv := Sample.provider 0 (Some Sample.two_utxos) (Some Sample.accepted))
      Sample.this Sample.the_wallet Sample.the_address initial_state
      = (Returned Sample.next_address, s2) /\
    requests s2 = [GET (FULL_ADDRESS "old")] /\
    List.filter is_POST (requests s2) = [] /\
    tx s2 = None.
Proof.
  exact (refreshAddress_zero_balance
           (Prv := Sample.provider 0 (Some Sample.two_utxos) (Some Sample.accepted))
           Sample.this Sample.the_wallet Sample.the_address initial_state
           {| balance := 0; transactions := [] |}
           (log_request (GET (FULL_ADDRESS "old")) initial_state)
           "pub/abandon about" "priv/abandon about"
           eq_refl eq_refl eq_refl).
Defined.

(** C2 as stated fails: with a balance of 80000 the amount
    [refreshAddress] hands to [sendFromOneAddress] is 0.0007 coin, not a
    number of satoshis. *)
Lemma sweep_amount_not_in_satoshis :
  refreshAddress (Prv := Sample.provider 80000 (Some Sample.two_utxos) (Some Sample.accepted))
    Sample.this Sample.the_wallet Sample.the_address initial_state
  = (sendFromOneAddress
       (Prv := Sample.provider 80000 (Some Sample.two_utxos) (Some Sample.accepted))
       Sample.this (sweep_args "old" Sample.key "addr/pub/abandon about" 80000)
     ≫= fun _ => mret Sample.next_address)
      {| requests := [GET (FULL_ADDRESS "old")];
         derivations := [{| path_account := 0; path_change := 0; path_index := 4 |}];
         tx := None |} /\
  paymentData (sweep_args "old" Sample.key "addr/pub/abandon about" 80000)
    = [{| pay_address := "addr/pub/abandon about";
          pay_amount := Decimal (70000 # 100000000) |}] /\
  ~ Forall (fun p => in_satoshis (pay_amount p) = true)
      (paymentData (sweep_args "old" Sample.key "addr/pub/abandon about" 80000)).
Proof.
  repeat split. intros Hall. inversion Hall as [|p ps Hp _]. discriminate Hp.
Qed.

Lemma amounts_converted_by_satoshiToFloat_witness :
  paymentData (sweep_args "old" Sample.key "addr/pub/abandon about" 80000)
    = [{| pay_address := "addr/pub/abandon about";
          pay_amount := Decimal (70000 # 100000000) |}].
Proof.
  refine (proj2 (proj1 (amounts_converted_by_satoshiToFloat
           (Prv := Sample.provider 80000 (Some Sample.two_utxos) (Some Sample.accepted))
           Sample.this Sample.the_wallet Sample.the_address initial_state
           {| balance := 80000; transactions := [] |}
           (log_request (GET (FULL_ADDRESS "old")) initial_state)
           Sample.next_address
           {| requests := [GET (FULL_ADDRESS "old")];
              derivations := [{| path_account := 0; path_change := 0; path_index := 4 |}];
              tx := None |} _ _ _ _))).
  - reflexivity.
  - vm_compute. intros [_ Hle]. apply Hle. reflexivity.
  - discriminate.
  - reflexivity.
Defined.

(** C1 fails on the code: the balance is 80000 and the sweep returns an
    error object (the provider's unspent-outputs request fails, or the
    unspent outputs do not cover the target), yet [refreshAddress] returns
    the new address record. *)
Theorem refreshAddress_returns_new_address_after_failed_sweep :
  (sendFromOneAddress (Prv := Sample.provider 80000 None None) Sample.this
     (sweep_args "old" Sample.key "addr/pub/abandon about" 80000)
     {| requests := [GET (FULL_ADDRESS "old")];
        derivations := [{| path_account := 0; path_change := 0; path_index := 4 |}];
        tx := None |}
   = (Returned (asErrorObject API_ERROR),
      {| requests := [GET (FULL_ADDRESS "old"); GET (UNSPENT_OUTPUTS "old")];
         derivations := [{| path_account := 0; path_change := 0; path_index := 4 |}];
         tx := Some (empty_builder "bitcoin") |}) /\
   refreshAddress (Prv := Sample.provider 80000 None None)
     Sample.this Sample.the_wallet Sample.the_address initial_state
   = (Returned Sample.next_address,
      {| requests := [GET (FULL_ADDRESS "old"); GET (UNSPENT_OUTPUTS "old")];
         derivations := [{| path_account := 0; path_change := 0; path_index := 4 |}];
         tx := Some (empty_builder "bitcoin") |})) /\
  (fst (sendFromOneAddress (Prv := Sample.provider 80000 (Some Sample.one_small_utxo) None)
          Sample.this (sweep_args "old" Sample.key "addr/pub/abandon about" 80000)
          {| requests := [GET (FULL_ADDRESS "old")];
             derivations := [{| path_account := 0; path_change := 0; path_index := 4 |}];
             tx := None |})
   = Returned (asErrorObject INSUFFICIENT_FUNDS) /\
   fst (refreshAddress (Prv := Sample.provider 80000 (Some Sample.one_small_utxo) None)
          Sample.this Sample.the_wallet Sample.the_address initial_state)
   = Returned Sample.next_address).
Proof. repeat split. Qed.

End Examples.

(** ** Further properties of [formatTransactionResponse] and [fetchAddressDetails] *)

Section HistoryProperties.
Context {Utl : LibUtils} {Prv : Provider}.
Implicit Types (address : string) (t : api_tx) (outputs : list api_output).

Lemma received_by_permutation address outputs outputs' :
  Permutation outputs outputs' ->
  received_by address outputs = received_by address outputs'.
Proof.
  induction 1 as [|o l l' _ IH|o o' l|l l' l'' _ IH1 _ IH2]; unfold received_by in *; cbn [foldr].
  - reflexivity.
  - destruct (lists _ _); lia.
  - do 2 destruct (lists _ _); lia.
  - congruence.
Qed.

Lemma existsb_permutation {A} (p : A -> bool) (l l' : list A) :
  Permutation l l' -> existsb p l = existsb p l'.
Proof.
  induction 1 as [|x l l' _ IH|x y l|l l' l'' _ IH1 _ IH2]; cbn.
  - reflexivity.
  - now rewrite IH.
  - now destruct (p x), (p y).
  - congruence.
Qed.

Lemma lists_true address (o : api_output) :
  lists address o = true <->
  exists addresses, o_addresses o = Some addresses /\ address ∈ addresses.
Proof.
  unfold lists, pays. destruct (o_addresses o) as [addresses|].
  - rewrite bool_decide_eq_true. split; [eauto|]. now intros (l & [= <-] & Hin).
  - split; [discriminate|]. now intros (l & [=] & _).
Qed.

Lemma existsb_lists_Exists address outputs :
  existsb (lists address) outputs = true <->
  Exists (fun o => exists addresses, o_addresses o = Some addresses /\ address ∈ addresses)
         outputs.
Proof.
  induction outputs as [|o outputs IH]; cbn.
  - split; [discriminate | intros Hex; inversion Hex].
  - rewrite orb_true_iff, IH, Exists_cons, lists_true. reflexivity.
Qed.

Lemma received_by_nobody address outputs :
  existsb (lists address) outputs = false ->
  received_by address outputs = 0.
Proof.
  induction outputs as [|o outputs IH]; intros Hno; [reflexivity|].
  unfold received_by. cbn [foldr]. fold (received_by address outputs).
  cbn in Hno. apply orb_false_iff in Hno as [Ho Hrest].
  rewrite Ho. now apply IH.
Qed.

(** The loop over the transactions returns exactly when every one of them
    is [formattable], and otherwise throws a [TypeError]. *)
Lemma formatTransactions_cases transactions address :
  (Forall formattable transactions /\
   exists rows, formatTransactions transactions address = Returned rows) \/
  (Exists (fun t => ~ formattable t) transactions /\
   formatTransactions transactions address = Thrown TypeError).
Proof.
  induction transactions as [|t rest IH]; cbn [formatTransactions].
  - left. split; [constructor | eauto].
  - destruct (formatTransaction_cases address t) as [[Hok [f ->]]|[Hbad ->]].
    + destruct IH as [[Hall [rows ->]]|[Hex ->]].
      * left. split; [now constructor | eauto].
      * right. split; [now right | reflexivity].
    + right. split; [now left | reflexivity].
Qed.

Lemma Forall_not_Exists_formattable transactions :
  Forall formattable transactions ->
  Exists (fun t => ~ formattable t) transactions -> False.
Proof.
  intros Hall Hex. apply Exists_exists in Hex as (t & Hin & Hbad).
  rewrite Forall_forall in Hall. exact (Hbad (Hall t Hin)).
Qed.

(** X1.  When [formatTransactionResponse] returns, it returns one row per
    provider transaction, in the provider's order: row [i] is the format
    of transaction [i], so the transaction ids and the fees are those of
    the provider, position by position. *)
Theorem formatTransactionResponse_one_row_per_transaction
    (answer : option (list api_tx)) address rows :
  formatTransactionResponse answer address = Returned rows ->
  exists transactions,
    answer = Some transactions /\
    Forall2 (fun t f => formatTransaction address t = Returned f) transactions rows /\
    length rows = length transactions /\
    map f_transaction_id rows = map hash transactions /\
    map f_fee rows = map fees transactions.
Proof.
  destruct answer as [transactions|]; [|discriminate]. cbn [formatTransactionResponse].
  intros Hrows. exists transactions. split; [reflexivity|].
  revert rows Hrows.
  induction transactions as [|t rest IH]; intros rows; cbn [formatTransactions].
  - intros [= <-]. repeat split. constructor.
  - destruct (formatTransaction address t) as [f|e] eqn:Ef; [|discriminate].
    destruct (formatTransactions rest address) as [fs|e]; [|discriminate].
    intros [= <-]. destruct (IH fs eq_refl) as (Hall & Hlen & Hids & Hfees).
    assert (Hf : f_transaction_id f = hash t /\ f_fee f = fees t).
    { destruct (formatTransaction_cases address t) as [[Hok _]|[_ Hthrown]]; [|congruence].
      destruct Hok as [(ins & input0 & senders & Hin & H0 & Hsenders) (outs & Hout & Hsome)].
      rewrite (formatTransaction_row address t _ _ _ _ Hin H0 Hsenders Hout Hsome) in Ef.
      injection Ef as <-. now split. }
    destruct Hf as [Hid Hfee]. cbn. repeat split.
    + now constructor.
    + now rewrite Hlen.
    + now rewrite Hid, Hids.
    + now rewrite Hfee, Hfees.
Qed.

(** X2.  [formatTransactionResponse] throws exactly when the list of
    transactions is missing or some transaction in it is not
    [formattable]: it lacks [inputs], or a first input, or the first
    input's [addresses], or [outputs], or the [addresses] of one of its
    outputs.  What it throws is the [TypeError] of the failed property
    access, never anything else; it returns exactly when the list is
    there and every transaction is [formattable].  A first input with an
    empty [addresses] array is no error. *)
Theorem formatTransactionResponse_throws_iff_malformed
    (answer : option (list api_tx)) address :
  (formatTransactionResponse answer address = Thrown TypeError <->
   (answer = None \/
    exists transactions,
      answer = Some transactions /\ Exists (fun t => ~ formattable t) transactions)) /\
  ((exists rows, formatTransactionResponse answer address = Returned rows) <->
   (exists transactions, answer = Some transactions /\ Forall formattable transactions)) /\
  (forall e, formatTransactionResponse answer address = Thrown e -> e = TypeError).
Proof.
  destruct answer as [transactions|]; cbn [formatTransactionResponse].
  - destruct (formatTransactions_cases transactions address)
      as [[Hall [rows Hrows]]|[Hex Hthrown]].
    + rewrite Hrows. split; [|split].
      * split; [discriminate|].
        intros [[=]|(txs & [= <-] & Hex)].
        destruct (Forall_not_Exists_formattable _ Hall Hex).
      * split; eauto.
      * discriminate.
    + rewrite Hthrown. split; [|split].
      * split; eauto.
      * split; [intros [rows [=]]|].
        intros (txs & [= <-] & Hall).
        destruct (Forall_not_Exists_formattable _ Hall Hex).
      * now intros e [= <-].
  - split; [|split].
    + split; auto.
    + split; [intros [rows [=]] | intros (txs & [=] & _)].
    + now intros e [= <-].
Qed.

(** X3.  The receiver of a row is the queried address when at least one
    output lists it (alone or beside other addresses), and is left [null]
    otherwise, in which case the amount is the conversion of 0; no other
    address is ever reported as receiver. *)
Theorem formatTransaction_receiver address t f :
  formatTransaction address t = Returned f ->
  exists outputs,
    tx_outputs t = Some outputs /\
    (Exists (fun o => exists addresses, o_addresses o = Some addresses /\ address ∈ addresses)
            outputs ->
     f_receiver_address f = Some address) /\
    (~ Exists (fun o => exists addresses, o_addresses o = Some addresses /\ address ∈ addresses)
              outputs ->
     f_receiver_address f = None /\ f_amount f = satoshiToFloat 0) /\
    (forall other, f_receiver_address f = Some other -> other = address).
Proof.
  intros Hrow.
  destruct (formatTransaction_cases address t) as [[Hok _]|[_ Hthrown]]; [|congruence].
  destruct Hok as [(ins & input0 & senders & Hin & H0 & Hsenders) (outputs & Hout & Hall)].
  rewrite (formatTransaction_row address t _ _ _ _ Hin H0 Hsenders Hout Hall) in Hrow.
  injection Hrow as <-. exists outputs. split; [exact Hout|].
  cbn [f_receiver_address f_amount].
  destruct (existsb (lists address) outputs) eqn:Epays.
  - pose proof (proj1 (existsb_lists_Exists address outputs) Epays) as Hex.
    split; [|split].
    + reflexivity.
    + intros Hno. contradiction.
    + now intros other [= <-].
  - split; [|split].
    + intros Hex. apply existsb_lists_Exists in Hex. congruence.
    + intros _. now rewrite (received_by_nobody _ _ Epays).
    + discriminate.
Qed.

(** X4.  The row does not depend on the order in which the provider lists
    the outputs of a transaction. *)
Theorem formatTransaction_output_order_irrelevant address t outputs outputs' :
  tx_outputs t = Some outputs ->
  Permutation outputs outputs' ->
  formatTransaction address
    {| confirmations := confirmations t; fees := fees t; hash := hash t;
       tx_inputs := tx_inputs t; tx_outputs := Some outputs'; received := received t |}
  = formatTransaction address t.
Proof.
  intros Hout Hperm. unfold formatTransaction.
  cbn [tx_inputs tx_outputs confirmations fees hash received]. rewrite Hout.
  destruct (tx_inputs t) as [ins|]; [|reflexivity].
  destruct (ins !! 0%nat) as [input0|]; [|reflexivity].
  destruct (in_addresses input0) as [senders|]; [|reflexivity].
  destruct (decide (Forall (fun o => is_Some (o_addresses o)) outputs)) as [Hall|Hbad].
  - assert (Hall' : Forall (fun o => is_Some (o_addresses o)) outputs')
      by now rewrite <- Hperm.
    rewrite (addOutputs_returned _ _ _ Hall), (addOutputs_returned _ _ _ Hall').
    rewrite (received_by_permutation _ _ _ Hperm).
    now rewrite (existsb_permutation _ _ _ Hperm).
  - assert (Hbad' : ~ Forall (fun o => is_Some (o_addresses o)) outputs')
      by now rewrite <- Hperm.
    now rewrite (addOutputs_thrown _ _ _ Hbad), (addOutputs_thrown _ _ _ Hbad').
Qed.

Implicit Types (this : BitcoinBlockchainManager) (s : state).

Lemma fetch_provider_answers this address s res :
  full_address address = Some res ->
  fetchAddressDetails this address s =
    (match formatTransactionResponse (res_txs res) address with
     | Returned rows => Returned {| balance := res_balance res; transactions := rows |}
     | Thrown e => Thrown e
     end,
     log_request (GET (FULL_ADDRESS address)) s).
Proof.
  intros Hres. unfold fetchAddressDetails. rewrite Hres.
  erewrite bind_returned by apply api_call_some.
  unfold lift, mbind, M_bind, bind.
  now destruct (formatTransactionResponse (res_txs res) address).
Qed.

Lemma fetch_provider_fails this address s :
  full_address address = None ->
  fetchAddressDetails this address s =
    (Thrown (RequestFailed (FULL_ADDRESS address)),
     log_request (GET (FULL_ADDRESS address)) s).
Proof.
  intros Hres. unfold fetchAddressDetails. rewrite Hres.
  now erewrite bind_thrown by apply api_call_none.
Qed.

(** X5.  [fetchAddressDetails] returns exactly when the provider answers,
    the answer has its [txs] array and every transaction in it is
    [formattable]; the balance it returns is the provider's, untouched,
    and the transactions are the formatted history. *)
Theorem fetchAddressDetails_returns_iff this address s :
  ((exists d s1, fetchAddressDetails this address s = (Returned d, s1)) <->
   (exists res transactions,
      full_address address = Some res /\
      res_txs res = Some transactions /\
      Forall formattable transactions)) /\
  (forall d s1,
     fetchAddressDetails this address s = (Returned d, s1) ->
     exists res, full_address address = Some res /\
                 balance d = res_balance res /\
                 formatTransactionResponse (res_txs res) address = Returned (transactions d)).
Proof.
  destruct (full_address address) as [res|] eqn:Hres.
  - rewrite (fetch_provider_answers _ _ _ _ Hres).
    destruct (res_txs res) as [txs|] eqn:Htxs; cbn [formatTransactionResponse].
    + destruct (formatTransactions_cases txs address) as [[Hall [rows Hrows]]|[Hex Hthrown]].
      * rewrite Hrows. split.
        -- split; [|eauto]. intros _. exists res, txs. now repeat split.
        -- intros d s1 [= <- <-]. exists res. rewrite Htxs. now repeat split.
      * rewrite Hthrown. split.
        -- split; [intros (d & s1 & [=])|].
           intros (res' & txs' & [= <-] & Htxs' & Hall).
           rewrite Htxs in Htxs'. injection Htxs' as <-.
           destruct (Forall_not_Exists_formattable _ Hall Hex).
        -- intros d s1 [=].
    + split.
      * split; [intros (d & s1 & [=])|].
        intros (res' & txs' & [= <-] & Htxs' & _). congruence.
      * intros d s1 [=].
  - rewrite (fetch_provider_fails _ _ _ Hres). split.
    + split; [intros (d & s1 & [=]) | intros (res & txs & [=] & _)].
    + intros d s1 [=].
Qed.

(** X6.  The ways [fetchAddressDetails] fails, none of them caught: a
    failed request rejects with the request's error, and an answer whose
    history is missing or holds one record that cannot be formatted (no
    input, for one) rejects with a [TypeError] although the balance had
    arrived.  Whatever the outcome, the balance query is the one request
    made, and neither a derivation nor a draft is touched. *)
Theorem fetchAddressDetails_failures this address s :
  (full_address address = None ->
   fst (fetchAddressDetails this address s) = Thrown (RequestFailed (FULL_ADDRESS address))) /\
  (forall res,
     full_address address = Some res ->
     (res_txs res = None \/
      exists transactions,
        res_txs res = Some transactions /\
        Exists (fun t => ~ formattable t) transactions) ->
     fst (fetchAddressDetails this address s) = Thrown TypeError) /\
  (forall t, tx_inputs t = Some [] -> ~ formattable t) /\
  requests (snd (fetchAddressDetails this address s))
    = requests s ++ [GET (FULL_ADDRESS address)] /\
  derivations (snd (fetchAddressDetails this address s)) = derivations s /\
  tx (snd (fetchAddressDetails this address s)) = tx s.
Proof.
  split; [|split; [|split]].
  - intros Hres. now rewrite (fetch_provider_fails _ _ _ Hres).
  - intros res Hres Hbad. rewrite (fetch_provider_answers _ _ _ _ Hres). cbn [fst].
    destruct Hbad as [Hnone|(txs & Htxs & Hex)].
    + now rewrite Hnone.
    + rewrite Htxs. cbn [formatTransactionResponse].
      destruct (formatTransactions_cases txs address) as [[Hall _]|[_ ->]]; [|reflexivity].
      destruct (Forall_not_Exists_formattable _ Hall Hex).
  - intros t Hin [(ins & input0 & senders & Hins & H0 & _) _].
    rewrite Hin in Hins. injection Hins as <-. discriminate.
  - destruct (fetchAddressDetails this address s) as [o s1] eqn:E.
    apply fetch_state in E as ->. now repeat split.
Qed.

End HistoryProperties.

(** ** Further properties of [sendFromOneAddress] *)

Section SendOutcomes.
Context {Cst : Constants} {Utl : LibUtils} {Cut : CoinUtils} {Lib : BitcoinLib} {Prv : Provider}.
Implicit Types (this : BitcoinBlockchainManager) (args : send_args) (s : state).

(** The requests a call adds to the log. *)
Lemma send_requests this args s :
  requests (snd (sendFromOneAddress this args s)) =
    requests s ++
    (if valid_private_key (privateKey args)
     then GET (UNSPENT_OUTPUTS (fromAddress args)) ::
          match unspent_outputs (fromAddress args) with
          | None => []
          | Some unspentOutputs =>
            if remainingSatoshis (selected_inputs this args unspentOutputs) <? 0
            then []
            else match signed_transaction this args unspentOutputs with
                 | Some signedTx => [POST SEND_TX signedTx]
                 | None => []
                 end
          end
     else []) /\
  derivations (snd (sendFromOneAddress this args s)) = derivations s.
Proof.
  destruct (valid_private_key (privateKey args)) eqn:Hkey.
  2: { rewrite (send_invalid_key _ _ _ Hkey). cbn. now rewrite app_nil_r. }
  destruct (unspent_outputs (fromAddress args)) as [unspentOutputs|] eqn:Hfetch.
  2: { now rewrite (send_provider_down _ _ _ Hkey Hfetch). }
  destruct (remainingSatoshis (selected_inputs this args unspentOutputs) <? 0) eqn:Hrem.
  { apply Z.ltb_lt in Hrem. now rewrite (send_insufficient _ _ _ _ Hkey Hfetch Hrem). }
  apply Z.ltb_ge in Hrem.
  destruct (signed_transaction this args unspentOutputs) as [signedTx|] eqn:Hsigned.
  - rewrite (send_posted _ _ _ _ _ Hkey Hfetch Hrem Hsigned). cbn.
    now rewrite <- app_assoc.
  - destruct (send_draft_rejected _ _ s _ Hkey Hfetch Hrem Hsigned) as [t' ->]. now cbn.
Qed.

(** X7.  When the request for the unspent outputs fails, the call fails
    early with the [API_ERROR] object: the draft is still empty, nothing
    was signed and no transaction was posted. *)
Theorem sendFromOneAddress_unspent_fetch_fails this args s :
  valid_private_key (privateKey args) = true ->
  unspent_outputs (fromAddress args) = None ->
  exists s' t,
    sendFromOneAddress this args s = (Returned (asErrorObject API_ERROR), s') /\
    tx s' = Some t /\ tb_inputs t = [] /\ tb_outputs t = [] /\ tb_signed t = [] /\
    requests s' = requests s ++ [GET (UNSPENT_OUTPUTS (fromAddress args))] /\
    List.filter is_POST (requests s') = List.filter is_POST (requests s).
Proof.
  intros Hkey Hdown. rewrite (send_provider_down _ _ _ Hkey Hdown).
  eexists _, _. split; [reflexivity|]. cbn. repeat split.
  rewrite List.filter_app. cbn. now rewrite app_nil_r.
Qed.

(** X8.  Once the library has built the signed transaction, a failure of
    the POST comes too late to undo anything.  When the request fails the
    call returns the same [API_ERROR] object as for a failed fetch; when
    the provider answers without a body object the destructuring of the
    answer throws a [TypeError] that nothing catches.  Either way the
    draft holds the whole transaction with every selected input signed,
    and the POST of the signed transaction is the last request made. *)
Theorem sendFromOneAddress_post_fails this args s unspentOutputs signedTx :
  valid_private_key (privateKey args) = true ->
  unspent_outputs (fromAddress args) = Some unspentOutputs ->
  0 <= remainingSatoshis (selected_inputs this args unspentOutputs) ->
  signed_transaction this args unspentOutputs = Some signedTx ->
  (send_tx signedTx = None ->
   fst (sendFromOneAddress this args s) = Returned (asErrorObject API_ERROR)) /\
  (forall res, send_tx signedTx = Some res -> data res = None ->
   fst (sendFromOneAddress this args s) = Thrown TypeError) /\
  tx (snd (sendFromOneAddress this args s)) = Some (final_draft this args unspentOutputs) /\
  last (requests (snd (sendFromOneAddress this args s))) = Some (POST SEND_TX signedTx) /\
  length (tb_signed (final_draft this args unspentOutputs))
    = length (inputs (selected_inputs this args unspentOutputs)).
Proof.
  intros Hkey Hfetch Hpos Hsigned.
  rewrite (send_posted _ _ _ _ _ Hkey Hfetch Hpos Hsigned). cbn [fst snd tx requests].
  unfold broadcast_result. repeat split.
  - intros Hpost. now rewrite Hpost.
  - intros res Hpost Hbody. now rewrite Hpost, Hbody.
  - now rewrite last_snoc.
  - unfold final_draft, built_draft. cbn [tb_signed].
    now rewrite length_map, length_seq.
Qed.

(** X9.  When the library accepts every call on the draft, the inputs of
    the draft are the selected inputs, as [(txid, vout)] pairs in
    selection order; every input index [0 .. n-1] is signed once, in that
    order, and always with the key pair made from the caller's private key
    on [NETWORK]. *)
Theorem sendFromOneAddress_signs_every_input this args s unspentOutputs t :
  valid_private_key (privateKey args) = true ->
  unspent_outputs (fromAddress args) = Some unspentOutputs ->
  0 <= remainingSatoshis (selected_inputs this args unspentOutputs) ->
  assemble this args unspentOutputs = Some t ->
  tx (snd (sendFromOneAddress this args s)) = Some t /\
  tb_network t = NETWORK /\
  tb_inputs t = map input_pair (inputs (selected_inputs this args unspentOutputs)) /\
  map fst (tb_signed t) = seq 0 (length (tb_inputs t)) /\
  Forall (fun signature =>
            snd signature = {| kp_privateKey := privateKey args; kp_network := NETWORK |})
         (tb_signed t).
Proof.
  intros Hkey Hfetch Hpos Hasm.
  pose proof (send_past_balance_check this args s unspentOutputs Hkey Hfetch Hpos) as Hrun.
  rewrite Hasm in Hrun. split.
  { destruct (build_toHex t); now rewrite Hrun. }
  rewrite (assemble_final_draft _ _ _ _ Hasm).
  unfold final_draft, built_draft. cbn [tb_network tb_inputs tb_signed].
  repeat split.
  - rewrite length_map, map_map. cbn [fst]. apply map_id.
  - apply Forall_forall. intros signature Hin.
    apply list_elem_of_In, in_map_iff in Hin as (i & <- & _). reflexivity.
Qed.

(** X10.  The requests of one call: none when the key is rejected; the
    fetch of the unspent outputs alone when that fetch fails, when the
    funds do not suffice, or when the library throws while the draft is
    assembled or built; the fetch followed by exactly one POST of the
    signed transaction otherwise.  Earlier requests stay in the log and no
    key is derived. *)
Theorem sendFromOneAddress_requests this args s :
  requests (snd (sendFromOneAddress this args s)) =
    requests s ++
    (if valid_private_key (privateKey args)
     then GET (UNSPENT_OUTPUTS (fromAddress args)) ::
          match unspent_outputs (fromAddress args) with
          | None => []
          | Some unspentOutputs =>
            if remainingSatoshis (selected_inputs this args unspentOutputs) <? 0
            then []
            else match signed_transaction this args unspentOutputs with
                 | Some signedTx => [POST SEND_TX signedTx]
                 | None => []
                 end
          end
     else []) /\
  derivations (snd (sendFromOneAddress this args s)) = derivations s.
Proof. apply send_requests. Qed.

(** What a call can end with. *)
Lemma send_ends this args s :
  (exists r, fst (sendFromOneAddress this args s) = Returned r) \/
  fst (sendFromOneAddress this args s) = Thrown (InvalidPrivateKey (privateKey args)) \/
  fst (sendFromOneAddress this args s) = Thrown TransactionError \/
  fst (sendFromOneAddress this args s) = Thrown TypeError.
Proof.
  destruct (valid_private_key (privateKey args)) eqn:Hkey.
  2: { rewrite (send_invalid_key _ _ _ Hkey). auto. }
  destruct (unspent_outputs (fromAddress args)) as [unspentOutputs|] eqn:Hfetch.
  2: { rewrite (send_provider_down _ _ _ Hkey Hfetch). eauto. }
  destruct (remainingSatoshis (selected_inputs this args unspentOutputs) <? 0) eqn:Hrem.
  { apply Z.ltb_lt in Hrem. rewrite (send_insufficient _ _ _ _ Hkey Hfetch Hrem). eauto. }
  apply Z.ltb_ge in Hrem.
  destruct (signed_transaction this args unspentOutputs) as [signedTx|] eqn:Hsigned.
  - rewrite (send_posted _ _ _ _ _ Hkey Hfetch Hrem Hsigned). cbn [fst].
    unfold broadcast_result. destruct (send_tx signedTx) as [res|]; [|eauto].
    destruct (data res); eauto.
  - destruct (send_draft_rejected _ _ s _ Hkey Hfetch Hrem Hsigned) as [t' ->]. auto.
Qed.

(** X11.  A failed request never rejects the promise of
    [sendFromOneAddress]: both requests are guarded, so whatever the
    provider does, no request error is thrown to the caller. *)
Theorem sendFromOneAddress_catches_request_failures this args s u :
  fst (sendFromOneAddress this args s) <> Thrown (RequestFailed u).
Proof.
  destruct (send_ends this args s) as [[r E]|[E|[E|E]]]; rewrite E; discriminate.
Qed.

(** X20.  Every call starts from a new draft (line 210): the answer does
    not depend on the draft an earlier call left behind, and once the key
    has been accepted neither does the state the call leaves. *)
Theorem sendFromOneAddress_fresh_draft this args s (leftover : option TransactionBuilder) :
  fst (sendFromOneAddress this args (set_tx leftover s))
    = fst (sendFromOneAddress this args s) /\
  (valid_private_key (privateKey args) = true ->
   sendFromOneAddress this args (set_tx leftover s) = sendFromOneAddress this args s).
Proof.
  destruct (valid_private_key (privateKey args)) eqn:Hkey.
  - assert (Hsame : sendFromOneAddress this args (set_tx leftover s)
                    = sendFromOneAddress this args s).
    { unfold sendFromOneAddress, ECPair_fromPrivateKey. rewrite Hkey.
      erewrite !bind_returned by reflexivity.
      unfold new_TransactionBuilder. reflexivity. }
    split; [now rewrite Hsame | intros _; exact Hsame].
  - rewrite !(send_invalid_key _ _ _ Hkey). split; [reflexivity | discriminate].
Qed.

End SendOutcomes.

(** ** Further properties of [refreshAddress] and [generateAddressFromSeed] *)

Section RotationOutcomes.
Context {Cst : Constants} {Utl : LibUtils} {Cut : CoinUtils} {Lib : BitcoinLib} {Prv : Provider}.
Implicit Types (this : BitcoinBlockchainManager) (w : wallet) (a : address_row) (s : state).

Lemma refresh_fetch_thrown this w a s e s1 :
  fetchAddressDetails this (address a) s = (Thrown e, s1) ->
  refreshAddress this w a s = (Thrown e, s1).
Proof. intros Hfetch. unfold refreshAddress. now erewrite bind_thrown by exact Hfetch. Qed.

Lemma refresh_small this w a s d s1 :
  fetchAddressDetails this (address a) s = (Returned d, s1) ->
  0 < balance d <= DEFAULT_FEE ->
  refreshAddress this w a s =
    (Returned {| ad_address := address a; ad_index := address_index w;
                 ad_privateKey := private_key a |}, s1).
Proof.
  intros Hfetch [Hlo Hhi]. unfold refreshAddress.
  erewrite bind_returned by exact Hfetch. cbv zeta.
  apply Z.gtb_lt in Hlo. apply Z.leb_le in Hhi. now rewrite Hlo, Hhi.
Qed.

Lemma refresh_derivation_thrown this w a s d s1 :
  fetchAddressDetails this (address a) s = (Returned d, s1) ->
  ~ (0 < balance d <= DEFAULT_FEE) ->
  derivePath (fromSeed (mnemonicToSeedSync (seed w)))
    {| path_account := ACCOUNT_BASE; path_change := CHANGE_CHAIN_EXTERNAL;
       path_index := address_index w + 1 |} = None ->
  refreshAddress this w a s =
    (Thrown DerivationFailed,
     log_derivation {| path_account := ACCOUNT_BASE; path_change := CHANGE_CHAIN_EXTERNAL;
                       path_index := address_index w + 1 |} s1).
Proof.
  intros Hfetch Hsmall Hd. unfold refreshAddress.
  erewrite bind_returned by exact Hfetch. cbv zeta.
  destruct ((balance d >? 0) && (balance d <=? DEFAULT_FEE)) eqn:E.
  { apply andb_true_iff in E as [E1 E2].
    apply Z.gtb_lt in E1. apply Z.leb_le in E2. exfalso. apply Hsmall. lia. }
  now erewrite bind_thrown by (apply generate_thrown; exact Hd).
Qed.

Lemma refresh_zero this w a s d s1 n s2 :
  fetchAddressDetails this (address a) s = (Returned d, s1) ->
  balance d = 0 ->
  generateAddressFromSeed this (seed w) ACCOUNT_BASE CHANGE_CHAIN_EXTERNAL
    (address_index w) s1 = (Returned n, s2) ->
  refreshAddress this w a s = (Returned n, s2).
Proof.
  intros Hfetch Hzero Hgen. unfold refreshAddress.
  erewrite bind_returned by exact Hfetch. cbv zeta.
  rewrite Hzero. cbn [Z.gtb Z.compare andb Z.eqb negb].
  erewrite bind_returned by exact Hgen.
  erewrite bind_returned by reflexivity.
  now rewrite address_data_eta.
Qed.

(** X12.  Whatever the provider and the libraries do, a record that
    [refreshAddress] returns is one of two: the supplied address and key
    with the wallet's index, or the address and key the library derives
    for the wallet's seed at index [address_index + 1]. *)
Theorem refreshAddress_returns_old_or_next this w a s r s' :
  refreshAddress this w a s = (Returned r, s') ->
  r = {| ad_address := address a; ad_index := address_index w;
         ad_privateKey := private_key a |} \/
  exists publicKey privateKey,
    derivePath (fromSeed (mnemonicToSeedSync (seed w)))
      {| path_account := ACCOUNT_BASE; path_change := CHANGE_CHAIN_EXTERNAL;
         path_index := address_index w + 1 |} = Some (publicKey, privateKey) /\
    r = {| ad_address := p2pkh publicKey NETWORK; ad_index := address_index w + 1;
           ad_privateKey := privateKey |}.
Proof.
  destruct (fetchAddressDetails this (address a) s) as [[d|e] s1] eqn:Hfetch.
  2: { rewrite (refresh_fetch_thrown _ _ _ _ _ _ Hfetch). discriminate. }
  destruct (decide (0 < balance d <= DEFAULT_FEE)) as [Hsmall|Hsmall].
  { rewrite (refresh_small _ _ _ _ _ _ Hfetch Hsmall). intros [= <- _]. now left. }
  destruct (derivePath (fromSeed (mnemonicToSeedSync (seed w)))
              {| path_account := ACCOUNT_BASE; path_change := CHANGE_CHAIN_EXTERNAL;
                 path_index := address_index w + 1 |})
    as [[publicKey privateKey]|] eqn:Hd.
  2: { rewrite (refresh_derivation_thrown _ _ _ _ _ _ Hfetch Hsmall Hd). discriminate. }
  pose proof (generate_returned this _ _ _ _ s1 _ _ Hd) as Hgen.
  intros Hrun. right. exists publicKey, privateKey. split; [reflexivity|].
  destruct (decide (balance d = 0)) as [Hzero|Hnz].
  - rewrite (refresh_zero _ _ _ _ _ _ _ _ Hfetch Hzero Hgen) in Hrun. congruence.
  - rewrite (refreshAddress_sweeps _ _ _ _ _ _ _ _ Hfetch Hsmall Hnz Hgen) in Hrun.
    unfold mbind, M_bind, bind in Hrun.
    destruct (sendFromOneAddress this _ _) as [[sent|e] s3]; [|discriminate].
    unfold mret, M_ret, ret in Hrun. congruence.
Qed.

(** X13.  A failure of the balance query (the request itself, or a
    history record that cannot be formatted) rejects [refreshAddress] with
    the same exception; nothing else has happened: no key was derived, no
    draft created, and the query is the only request. *)
Theorem refreshAddress_fetch_failure_propagates this w a s e s1 :
  fetchAddressDetails this (address a) s = (Thrown e, s1) ->
  refreshAddress this w a s = (Thrown e, s1) /\
  requests s1 = requests s ++ [GET (FULL_ADDRESS (address a))] /\
  derivations s1 = derivations s /\
  tx s1 = tx s.
Proof.
  intros Hfetch. split; [now apply refresh_fetch_thrown|].
  apply fetch_state in Hfetch as ->. now repeat split.
Qed.

(** X14.  When the balance calls for a new address and the library
    rejects the path of the next index, [refreshAddress] is rejected with
    that failure before anything is swept: the balance query stays the
    only request, even for a balance above the fee. *)
Theorem refreshAddress_derivation_failure this w a s d s1 :
  fetchAddressDetails this (address a) s = (Returned d, s1) ->
  ~ (0 < balance d <= DEFAULT_FEE) ->
  derivePath (fromSeed (mnemonicToSeedSync (seed w)))
    {| path_account := ACCOUNT_BASE; path_change := CHANGE_CHAIN_EXTERNAL;
       path_index := address_index w + 1 |} = None ->
  exists s2,
    refreshAddress this w a s = (Thrown DerivationFailed, s2) /\
    requests s2 = requests s ++ [GET (FULL_ADDRESS (address a))] /\
    tx s2 = tx s.
Proof.
  intros Hfetch Hsmall Hd. eexists. split.
  - apply (refresh_derivation_thrown _ _ _ _ _ _ Hfetch Hsmall Hd).
  - apply fetch_state in Hfetch as ->. now split.
Qed.

(** X15.  With a balance that must be swept and a stored private key the
    library rejects, [refreshAddress] is rejected with the key's
    exception: the next address has been derived, but no unspent output
    was requested and nothing was posted. *)
Theorem refreshAddress_malformed_key this w a s d s1 n s2 :
  fetchAddressDetails this (address a) s = (Returned d, s1) ->
  ~ (0 < balance d <= DEFAULT_FEE) ->
  balance d <> 0 ->
  generateAddressFromSeed this (seed w) ACCOUNT_BASE CHANGE_CHAIN_EXTERNAL
    (address_index w) s1 = (Returned n, s2) ->
  valid_private_key (private_key a) = false ->
  refreshAddress this w a s = (Thrown (InvalidPrivateKey (private_key a)), s2) /\
  requests s2 = requests s ++ [GET (FULL_ADDRESS (address a))].
Proof.
  intros Hfetch Hsmall Hnz Hgen Hkey.
  rewrite (refreshAddress_sweeps _ _ _ _ _ _ _ _ Hfetch Hsmall Hnz Hgen).
  erewrite bind_thrown by (apply send_invalid_key; exact Hkey).
  split; [reflexivity|].
  apply fetch_state in Hfetch as ->.
  unfold generateAddressFromSeed, node_derivePath in Hgen.
  unfold mbind, M_bind, bind, modify in Hgen. cbn in Hgen.
  destruct (derivePath _ _) as [[publicKey privateKey]|]; cbn in Hgen.
  - now injection Hgen as _ <-.
  - discriminate.
Qed.

(** X16.  The sweep that goes through: with a balance to sweep, a key the
    library accepts, unspent outputs that cover the target and a
    transaction the library builds, the requests are the balance query,
    the fetch of the old address's unspent outputs and one POST of the
    signed transaction.  The new record is returned whenever the broadcast
    step returns, success or error object alike; when the provider's
    answer has no body object, the [TypeError] of the broadcast step
    rejects [refreshAddress] after the POST.  A change output, if there is
    one, pays the old address. *)
Theorem refreshAddress_sweep_broadcast this w a s d s1 n s2 unspentOutputs signedTx :
  fetchAddressDetails this (address a) s = (Returned d, s1) ->
  ~ (0 < balance d <= DEFAULT_FEE) ->
  balance d <> 0 ->
  generateAddressFromSeed this (seed w) ACCOUNT_BASE CHANGE_CHAIN_EXTERNAL
    (address_index w) s1 = (Returned n, s2) ->
  valid_private_key (private_key a) = true ->
  unspent_outputs (address a) = Some unspentOutputs ->
  let sweep := sweep_args (address a) (private_key a) (ad_address n) (balance d) in
  0 <= remainingSatoshis (selected_inputs this sweep unspentOutputs) ->
  signed_transaction this sweep unspentOutputs = Some signedTx ->
  (forall r, broadcast_result signedTx = Returned r ->
             fst (refreshAddress this w a s) = Returned n) /\
  (forall e, broadcast_result signedTx = Thrown e ->
             fst (refreshAddress this w a s) = Thrown e) /\
  requests (snd (refreshAddress this w a s))
    = requests s ++ [GET (FULL_ADDRESS (address a));
                     GET (UNSPENT_OUTPUTS (address a));
                     POST SEND_TX signedTx] /\
  tx (snd (refreshAddress this w a s)) = Some (final_draft this sweep unspentOutputs) /\
  Forall (fun o => out_address o = address a)
         (change_outputs sweep (remainingSatoshis (selected_inputs this sweep unspentOutputs))).
Proof.
  intros Hfetch Hsmall Hnz Hgen Hkey Hunspent sweep Hpos Hsigned.
  rewrite (refreshAddress_sweeps _ _ _ _ _ _ _ _ Hfetch Hsmall Hnz Hgen).
  fold sweep.
  assert (Hreq2 : requests s2 = requests s ++ [GET (FULL_ADDRESS (address a))]).
  { apply fetch_state in Hfetch as ->.
    unfold generateAddressFromSeed, node_derivePath in Hgen.
    unfold mbind, M_bind, bind, modify in Hgen. cbn in Hgen.
    destruct (derivePath _ _) as [[pub priv]|]; cbn in Hgen.
    + now injection Hgen as _ <-.
    + discriminate. }
  pose proof (send_posted this sweep s2 unspentOutputs signedTx Hkey Hunspent Hpos Hsigned)
    as Hsend.
  unfold mbind, M_bind, bind. rewrite Hsend.
  split; [|split; [|split; [|split]]].
  - intros r Hr. now rewrite Hr.
  - intros e He. now rewrite He.
  - destruct (broadcast_result signedTx); cbn [snd requests];
      rewrite Hreq2, <- !app_assoc; reflexivity.
  - now destruct (broadcast_result signedTx).
  - unfold change_outputs. destruct (_ && _); constructor; [reflexivity | constructor].
Qed.

(** X17.  [generateAddressFromSeed] makes no request and touches no
    draft; it asks the library for one path, the one of the given account
    and chain at index [numberOfAddresses + 1]; and it throws exactly when
    the library rejects that path. *)
Theorem generateAddressFromSeed_effects this mnemonic account changeChain n s :
  requests (snd (generateAddressFromSeed this mnemonic account changeChain n s)) = requests s /\
  tx (snd (generateAddressFromSeed this mnemonic account changeChain n s)) = tx s /\
  derivations (snd (generateAddressFromSeed this mnemonic account changeChain n s))
    = derivations s ++ [{| path_account := account; path_change := changeChain;
                           path_index := n + 1 |}] /\
  ((exists e, fst (generateAddressFromSeed this mnemonic account changeChain n s) = Thrown e) <->
   derivePath (fromSeed (mnemonicToSeedSync mnemonic))
     {| path_account := account; path_change := changeChain; path_index := n + 1 |} = None).
Proof.
  destruct (derivePath (fromSeed (mnemonicToSeedSync mnemonic))
              {| path_account := account; path_change := changeChain;
                 path_index := n + 1 |}) as [[publicKey privateKey]|] eqn:Hd.
  - rewrite (generate_returned _ _ _ _ _ _ _ _ Hd). cbn. repeat split; try discriminate.
    intros [e [=]].
  - rewrite (generate_thrown _ _ _ _ _ _ Hd). cbn. repeat split; eauto.
Qed.

Lemma snd_then_ret {A B} (m : M A) (b : B) s :
  snd ((m ≫= fun _ => mret b) s) = snd (m s).
Proof. unfold mbind, M_bind, bind. now destruct (m s) as [[x|e] s1]. Qed.

(** X21.  The requests of one [refreshAddress], whatever its outcome: the
    balance query of the supplied address comes first; after it there is
    nothing, or the fetch of that address's unspent outputs, or that fetch
    followed by a single POST.  No other address is queried and at most
    one transaction is posted. *)
Theorem refreshAddress_request_discipline this w a s :
  exists rest,
    requests (snd (refreshAddress this w a s))
      = requests s ++ GET (FULL_ADDRESS (address a)) :: rest /\
    (rest = [] \/
     rest = [GET (UNSPENT_OUTPUTS (address a))] \/
     exists rawtx, rest = [GET (UNSPENT_OUTPUTS (address a)); POST SEND_TX rawtx]).
Proof.
  destruct (fetchAddressDetails this (address a) s) as [[d|e] s1] eqn:Hfetch.
  2: { rewrite (refresh_fetch_thrown _ _ _ _ _ _ Hfetch).
       apply fetch_state in Hfetch as ->. exists []. cbn. auto. }
  destruct (decide (0 < balance d <= DEFAULT_FEE)) as [Hsmall|Hsmall].
  { rewrite (refresh_small _ _ _ _ _ _ Hfetch Hsmall).
    apply fetch_state in Hfetch as ->. exists []. cbn. auto. }
  destruct (derivePath (fromSeed (mnemonicToSeedSync (seed w)))
              {| path_account := ACCOUNT_BASE; path_change := CHANGE_CHAIN_EXTERNAL;
                 path_index := address_index w + 1 |})
    as [[pub priv]|] eqn:Hd.
  2: { rewrite (refresh_derivation_thrown _ _ _ _ _ _ Hfetch Hsmall Hd).
       apply fetch_state in Hfetch as ->. exists []. cbn. auto. }
  pose proof (generate_returned this _ _ _ _ s1 _ _ Hd) as Hgen.
  destruct (decide (balance d = 0)) as [Hzero|Hnz].
  { rewrite (refresh_zero _ _ _ _ _ _ _ _ Hfetch Hzero Hgen).
    apply fetch_state in Hfetch as ->. exists []. cbn. auto. }
  rewrite (refreshAddress_sweeps _ _ _ _ _ _ _ _ Hfetch Hsmall Hnz Hgen).
  rewrite snd_then_ret, (proj1 (send_requests _ _ _)).
  apply fetch_state in Hfetch as ->.
  cbn [sweep_args privateKey fromAddress].
  cbn [requests log_derivation log_request]. rewrite <- app_assoc. cbn [app].
  destruct (valid_private_key (private_key a)); [|exists []; auto].
  destruct (unspent_outputs (address a)) as [unspentOutputs|]; [|eexists; eauto].
  destruct (remainingSatoshis _ <? 0); [eexists; eauto|].
  destruct (signed_transaction _ _ _) as [signedTx|]; eexists; eauto 6.
Qed.

End RotationOutcomes.

(** ** The singleton accessor *)

Section Singleton.
Context {Cst : Constants}.

(** X18.  Reading [instance] leaves a valid class object valid and never
    changes a manager that exists; the reference it returns denotes a
    manager, and reading it again returns the same reference without
    constructing anything. *)
Theorem instance_shared (c : class_state) :
  instance_valid c ->
  instance_valid (snd (instance c)) /\
  is_Some (objects (snd (instance c)) !! fst (instance c)) /\
  instance (snd (instance c)) = instance c /\
  (forall reference m, objects c !! reference = Some m ->
                       objects (snd (instance c)) !! reference = Some m).
Proof.
  intros Hvalid. unfold instance.
  destruct (_instance c) as [reference|] eqn:Hfield; cbn.
  - rewrite Hfield. repeat split; auto.
  - repeat split.
    + intros reference [= <-]. cbn.
      rewrite lookup_app_r, Nat.sub_diag by lia. eauto.
    + rewrite lookup_app_r, Nat.sub_diag by lia. eauto.
    + intros reference m Hm. now apply lookup_app_l_Some.
Qed.

(** X19.  After [resetInstance] the next read of [instance] constructs a
    new manager: its reference denoted no manager before, its [defaultFee]
    is [DEFAULT_FEE], and the managers constructed earlier, the former
    instance among them, are still there unchanged. *)
Theorem resetInstance_then_fresh_instance (c : class_state) :
  objects c !! fst (instance (resetInstance c)) = None /\
  objects (snd (instance (resetInstance c))) !! fst (instance (resetInstance c))
    = Some {| defaultFee := DEFAULT_FEE |} /\
  _instance (snd (instance (resetInstance c))) = Some (fst (instance (resetInstance c))) /\
  (forall reference m, objects c !! reference = Some m ->
                       objects (snd (instance (resetInstance c))) !! reference = Some m).
Proof.
  unfold instance, resetInstance. cbn. repeat split.
  - apply lookup_ge_None. lia.
  - now rewrite lookup_app_r, Nat.sub_diag by lia.
  - intros reference m Hm. now apply lookup_app_l_Some.
Qed.

End Singleton.

(** ** The further properties at concrete inputs *)

Section MoreExamples.
#[local] Existing Instance Sample.constants.
#[local] Existing Instance Sample.utils.
#[local] Existing Instance Sample.coin_utils.
#[local] Existing Instance Sample.lib.

Lemma paid_twice_formattable : formattable Sample.paid_twice.
Proof.
  split.
  - eexists _, _, _. repeat split.
  - eexists. split; [reflexivity|]. repeat constructor; eauto.
Qed.

Lemma pays_other_formattable : formattable Sample.pays_other.
Proof.
  split.
  - eexists _, _, _. repeat split.
  - eexists. split; [reflexivity|]. repeat constructor; eauto.
Qed.

Lemma null_addresses_not_formattable : ~ formattable Sample.null_addresses.
Proof.
  intros [_ (outputs & [= <-] & Hall)].
  inversion Hall as [|? ? _ Hrest]; subst.
  inversion Hrest as [|? ? [l Hl] _]; subst. discriminate Hl.
Qed.

Lemma formatTransactionResponse_one_row_per_transaction_witness :
  exists rows,
    formatTransactionResponse (Some [Sample.paid_twice; Sample.pays_other]) "old"
      = Returned rows /\
    length rows = 2%nat /\
    map f_transaction_id rows = ["t1"; "t2"]%string /\
    map f_fee rows = [300; 200].
Proof.
  eexists. split; [reflexivity|].
  destruct (formatTransactionResponse_one_row_per_transaction
              (Some [Sample.paid_twice; Sample.pays_other]) "old" _ eq_refl)
    as (txs & [= <-] & _ & Hlen & Hids & Hfees).
  split; [exact Hlen | split; [exact Hids | exact Hfees]].
Defined.

(** An output with [addresses: null] makes the whole history throw. *)
Lemma formatTransactionResponse_throws_iff_malformed_witness :
  formatTransactionResponse (Some [Sample.paid_twice; Sample.null_addresses]) "old"
    = Thrown TypeError /\
  exists rows,
    formatTransactionResponse (Some [Sample.paid_twice; Sample.pays_other]) "old"
      = Returned rows.
Proof.
  split.
  - apply (proj1 (formatTransactionResponse_throws_iff_malformed
                    (Some [Sample.paid_twice; Sample.null_addresses]) "old")).
    right. eexists. split; [reflexivity|].
    right. left. exact null_addresses_not_formattable.
  - apply (proj1 (proj2 (formatTransactionResponse_throws_iff_malformed
                           (Some [Sample.paid_twice; Sample.pays_other]) "old"))).
    eexists. split; [reflexivity|].
    repeat constructor;
      [exact (proj1 paid_twice_formattable) | exact (proj2 paid_twice_formattable)
      | exact (proj1 pays_other_formattable) | exact (proj2 pays_other_formattable)].
Defined.

(** The address is listed by two of the three outputs, once beside
    another address: 700 + 40 is received. *)
Lemma formatTransaction_receiver_witness :
  exists f,
    formatTransaction "old" Sample.paid_twice = Returned f /\
    f_receiver_address f = Some "old"%string /\
    f_amount f = Decimal (740 # 100000000).
Proof.
  eexists. split; [reflexivity|]. split; [|reflexivity].
  destruct (formatTransaction_receiver "old" Sample.paid_twice _ eq_refl)
    as (outputs & [= <-] & Hlisted & _).
  apply Hlisted. left. eexists. split; [reflexivity|]. left.
Defined.

Lemma formatTransaction_output_order_irrelevant_witness :
  formatTransaction "old"
    {| confirmations := confirmations Sample.paid_twice;
       fees := fees Sample.paid_twice;
       hash := hash Sample.paid_twice;
       tx_inputs := tx_inputs Sample.paid_twice;
       tx_outputs := Some (rev (default [] (tx_outputs Sample.paid_twice)));
       received := received Sample.paid_twice |}
  = formatTransaction "old" Sample.paid_twice.
Proof.
  apply (formatTransaction_output_order_irrelevant "old" Sample.paid_twice
           (default [] (tx_outputs Sample.paid_twice))
           (rev (default [] (tx_outputs Sample.paid_twice)))).
  - reflexivity.
  - apply Permutation_rev.
Defined.

Lemma fetchAddressDetails_returns_iff_witness :
  exists d s1,
    fetchAddressDetails
      (Prv := Sample.provider_with_history 80000 [Sample.paid_twice; Sample.pays_other])
      Sample.this "old" initial_state = (Returned d, s1).
Proof.
  apply (proj2 (proj1 (fetchAddressDetails_returns_iff
           (Prv := Sample.provider_with_history 80000 [Sample.paid_twice; Sample.pays_other])
           Sample.this "old" initial_state))).
  eexists _, _. split; [reflexivity|]. split; [reflexivity|].
  repeat constructor;
    [exact (proj1 paid_twice_formattable) | exact (proj2 paid_twice_formattable)
    | exact (proj1 pays_other_formattable) | exact (proj2 pays_other_formattable)].
Defined.

Lemma fetchAddressDetails_failures_witness :
  fst (fetchAddressDetails
         (Prv := Sample.provider_with_history 80000 [Sample.paid_twice; Sample.no_inputs])
         Sample.this "old" initial_state) = Thrown TypeError /\
  fst (fetchAddressDetails (Prv := Sample.provider_down) Sample.this "old" initial_state)
    = Thrown (RequestFailed (FULL_ADDRESS "old")).
Proof.
  split.
  - apply (proj1 (proj2 (fetchAddressDetails_failures
             (Prv := Sample.provider_with_history 80000 [Sample.paid_twice; Sample.no_inputs])
             Sample.this "old" initial_state))
             {| res_balance := 80000;
                res_txs := Some [Sample.paid_twice; Sample.no_inputs] |}).
    + reflexivity.
    + right. eexists. split; [reflexivity|]. right. left.
      apply (proj1 (proj2 (proj2 (fetchAddressDetails_failures
               (Prv := Sample.provider_down) Sample.this "old" initial_state)))).
      reflexivity.
  - apply (proj1 (fetchAddressDetails_failures (Prv := Sample.provider_down)
                    Sample.this "old" initial_state)).
    reflexivity.
Defined.

Lemma sendFromOneAddress_unspent_fetch_fails_witness :
  exists s' t,
    sendFromOneAddress (Prv := Sample.provider 80000 None None)
      Sample.this Sample.pay_args initial_state
      = (Returned (asErrorObject API_ERROR), s') /\
    tx s' = Some t /\ tb_inputs t = [] /\ tb_outputs t = [] /\ tb_signed t = [] /\
    requests s' = requests initial_state ++ [GET (UNSPENT_OUTPUTS "old")] /\
    List.filter is_POST (requests s') = List.filter is_POST (requests initial_state).
Proof.
  apply (sendFromOneAddress_unspent_fetch_fails (Prv := Sample.provider 80000 None None)
           Sample.this Sample.pay_args initial_state).
  - reflexivity.
  - reflexivity.
Defined.

(** The POST fails, and the POST is answered with status 200 and no body:
    in both runs the signed transaction has gone out. *)
Lemma sendFromOneAddress_post_fails_witness :
  fst (sendFromOneAddress (Prv := Sample.provider 80000 (Some Sample.spendable) None)
         Sample.this Sample.payment_args initial_state)
    = Returned (asErrorObject API_ERROR) /\
  fst (sendFromOneAddress
         (Prv := Sample.provider 80000 (Some Sample.spendable) (Some Sample.no_body))
         Sample.this Sample.payment_args initial_state)
    = Thrown TypeError /\
  exists signedTx,
    last (requests (snd (sendFromOneAddress
                           (Prv := Sample.provider 80000 (Some Sample.spendable)
                                     (Some Sample.no_body))
                           Sample.this Sample.payment_args initial_state)))
      = Some (POST SEND_TX signedTx).
Proof.
  split; [|split].
  - refine (proj1 (sendFromOneAddress_post_fails
              (Prv := Sample.provider 80000 (Some Sample.spendable) None)
              Sample.this Sample.payment_args initial_state Sample.spendable _ _ _ _ _) _).
    + reflexivity.
    + reflexivity.
    + vm_compute. discriminate.
    + reflexivity.
    + reflexivity.
  - refine (proj1 (proj2 (sendFromOneAddress_post_fails
              (Prv := Sample.provider 80000 (Some Sample.spendable) (Some Sample.no_body))
              Sample.this Sample.payment_args initial_state Sample.spendable _ _ _ _ _))
              Sample.no_body _ _).
    + reflexivity.
    + reflexivity.
    + vm_compute. discriminate.
    + reflexivity.
    + reflexivity.
    + reflexivity.
  - eexists.
    refine (proj1 (proj2 (proj2 (proj2 (sendFromOneAddress_post_fails
              (Prv := Sample.provider 80000 (Some Sample.spendable) (Some Sample.no_body))
              Sample.this Sample.payment_args initial_state Sample.spendable _ _ _ _ _))))).
    + reflexivity.
    + reflexivity.
    + vm_compute. discriminate.
    + reflexivity.
Defined.

Lemma sendFromOneAddress_signs_every_input_witness :
  exists t,
    tx (snd (sendFromOneAddress
               (Prv := Sample.provider 80000 (Some Sample.spendable) (Some Sample.accepted))
               Sample.this Sample.payment_args initial_state)) = Some t /\
    tb_inputs t = map input_pair Sample.spendable /\
    map fst (tb_signed t) = [0; 1]%nat.
Proof.
  destruct (sendFromOneAddress_signs_every_input
              (Prv := Sample.provider 80000 (Some Sample.spendable) (Some Sample.accepted))
              Sample.this Sample.payment_args initial_state Sample.spendable
              (final_draft Sample.this Sample.payment_args Sample.spendable))
    as (Htx & _ & Hin & Hsig & _).
  - reflexivity.
  - reflexivity.
  - vm_compute. discriminate.
  - reflexivity.
  - eexists. split; [exact Htx|]. split; [exact Hin|]. exact Hsig.
Defined.

(** A destination the library does not take for an address: the fetch is
    the only request, nothing is posted. *)
Lemma sendFromOneAddress_requests_witness :
  requests (snd (sendFromOneAddress
                   (Prv := Sample.provider 80000 (Some Sample.spendable) (Some Sample.accepted))
                   Sample.this Sample.bad_destination_args initial_state))
  = [GET (UNSPENT_OUTPUTS "1BgGZ9tcN4rm9KBzDn7KprQz87SZ26SAMH")].
Proof.
  exact (proj1 (sendFromOneAddress_requests
                  (Prv := Sample.provider 80000 (Some Sample.spendable) (Some Sample.accepted))
                  Sample.this Sample.bad_destination_args initial_state)).
Defined.

Lemma sendFromOneAddress_catches_request_failures_witness :
  fst (sendFromOneAddress (Prv := Sample.provider_down)
         Sample.this Sample.pay_args initial_state)
  <> Thrown (RequestFailed (UNSPENT_OUTPUTS "old")).
Proof.
  exact (sendFromOneAddress_catches_request_failures (Prv := Sample.provider_down)
           Sample.this Sample.pay_args initial_state (UNSPENT_OUTPUTS "old")).
Defined.

Lemma refreshAddress_returns_old_or_next_witness :
  Sample.next_address =
    {| ad_address := address Sample.the_address;
       ad_index := address_index Sample.the_wallet;
       ad_privateKey := private_key Sample.the_address |} \/
  exists publicKey privateKey,
    derivePath (fromSeed (mnemonicToSeedSync (seed Sample.the_wallet)))
      {| path_account := ACCOUNT_BASE; path_change := CHANGE_CHAIN_EXTERNAL;
         path_index := address_index Sample.the_wallet + 1 |} = Some (publicKey, privateKey) /\
    Sample.next_address =
      {| ad_address := p2pkh publicKey NETWORK;
         ad_index := address_index Sample.the_wallet + 1;
         ad_privateKey := privateKey |}.
Proof.
  exact (refreshAddress_returns_old_or_next
           (Prv := Sample.provider 80000 (Some Sample.one_small_utxo) None)
           Sample.this Sample.the_wallet Sample.the_address initial_state
           Sample.next_address
           {| requests := [GET (FULL_ADDRESS "old"); GET (UNSPENT_OUTPUTS "old")];
              derivations := [{| path_account := 0; path_change := 0; path_index := 4 |}];
              tx := Some (empty_builder "bitcoin") |}
           eq_refl).
Defined.

Lemma refreshAddress_fetch_failure_propagates_witness :
  refreshAddress (Prv := Sample.provider_down)
    Sample.this Sample.the_wallet Sample.the_address initial_state
  = (Thrown (RequestFailed (FULL_ADDRESS "old")),
     log_request (GET (FULL_ADDRESS "old")) initial_state).
Proof.
  apply (refreshAddress_fetch_failure_propagates (Prv := Sample.provider_down)
           Sample.this Sample.the_wallet Sample.the_address initial_state).
  reflexivity.
Defined.

Lemma refreshAddress_derivation_failure_witness :
  exists s2,
    refreshAddress (Prv := Sample.provider 80000 (Some Sample.two_utxos) (Some Sample.accepted))
      Sample.this Sample.exhausted_wallet Sample.the_address initial_state
      = (Thrown DerivationFailed, s2) /\
    requests s2 = requests initial_state ++ [GET (FULL_ADDRESS "old")] /\
    tx s2 = tx initial_state.
Proof.
  apply (refreshAddress_derivation_failure
           (Prv := Sample.provider 80000 (Some Sample.two_utxos) (Some Sample.accepted))
           Sample.this Sample.exhausted_wallet Sample.the_address initial_state
           {| balance := 80000; transactions := [] |}
           (log_request (GET (FULL_ADDRESS "old")) initial_state)).
  - reflexivity.
  - vm_compute. intros [_ Hle]. apply Hle. reflexivity.
  - reflexivity.
Defined.

Lemma refreshAddress_malformed_key_witness :
  fst (refreshAddress (Prv := Sample.provider 80000 (Some Sample.two_utxos) (Some Sample.accepted))
         Sample.this Sample.the_wallet Sample.bad_key_address initial_state)
  = Thrown (InvalidPrivateKey "zz").
Proof.
  refine (f_equal fst (proj1 (refreshAddress_malformed_key
           (Prv := Sample.provider 80000 (Some Sample.two_utxos) (Some Sample.accepted))
           Sample.this Sample.the_wallet Sample.bad_key_address initial_state
           {| balance := 80000; transactions := [] |}
           (log_request (GET (FULL_ADDRESS "old")) initial_state)
           Sample.next_address
           {| requests := [GET (FULL_ADDRESS "old")];
              derivations := [{| path_account := 0; path_change := 0; path_index := 4 |}];
              tx := None |} _ _ _ _ _))).
  - reflexivity.
  - vm_compute. intros [_ Hle]. apply Hle. reflexivity.
  - discriminate.
  - reflexivity.
  - reflexivity.
Defined.

(** The provider reports a balance of 80000 and the two sample outputs;
    its answer to the POST has status 201: the sweep step returns the
    [BROADCAST_ERROR] object and the new record is returned all the same. *)
Lemma refreshAddress_sweep_broadcast_witness :
  fst (refreshAddress (Prv := Sample.provider 80000 (Some Sample.spendable) (Some Sample.created))
         Sample.this Sample.the_wallet Sample.funded_address initial_state)
    = Returned Sample.next_address /\
  exists signedTx,
    requests (snd (refreshAddress
                     (Prv := Sample.provider 80000 (Some Sample.spendable) (Some Sample.created))
                     Sample.this Sample.the_wallet Sample.funded_address initial_state))
    = [GET (FULL_ADDRESS "1BgGZ9tcN4rm9KBzDn7KprQz87SZ26SAMH");
       GET (UNSPENT_OUTPUTS "1BgGZ9tcN4rm9KBzDn7KprQz87SZ26SAMH");
       POST SEND_TX signedTx].
Proof.
  destruct (refreshAddress_sweep_broadcast
              (Prv := Sample.provider 80000 (Some Sample.spendable) (Some Sample.created))
              Sample.this Sample.the_wallet Sample.funded_address initial_state
              {| balance := 80000; transactions := [] |}
              (log_request (GET (FULL_ADDRESS "1BgGZ9tcN4rm9KBzDn7KprQz87SZ26SAMH"))
                 initial_state)
              Sample.next_address
              {| requests := [GET (FULL_ADDRESS "1BgGZ9tcN4rm9KBzDn7KprQz87SZ26SAMH")];
                 derivations := [{| path_account := 0; path_change := 0; path_index := 4 |}];
                 tx := None |}
              Sample.spendable
              (String.concat ","
                 (map fst (tb_inputs (final_draft Sample.this
                                        (sweep_args "1BgGZ9tcN4rm9KBzDn7KprQz87SZ26SAMH"
                                           Sample.funded_key "addr/pub/abandon about" 80000)
                                        Sample.spendable))
                  ++ ["addr/pub/abandon about"%string])))
    as (Hret & _ & Hreq & _).
  - reflexivity.
  - vm_compute. intros [_ Hle]. apply Hle. reflexivity.
  - discriminate.
  - reflexivity.
  - reflexivity.
  - reflexivity.
  - vm_compute. discriminate.
  - reflexivity.
  - split.
    + exact (Hret (asErrorObject BROADCAST_ERROR) eq_refl).
    + eexists. exact Hreq.
Defined.

Lemma generateAddressFromSeed_effects_witness :
  derivations (snd (generateAddressFromSeed Sample.this "abandon about" 0 0 4294967295
                      initial_state))
    = [{| path_account := 0; path_change := 0; path_index := 4294967296 |}] /\
  exists e, fst (generateAddressFromSeed Sample.this "abandon about" 0 0 4294967295
                   initial_state) = Thrown e.
Proof.
  destruct (generateAddressFromSeed_effects Sample.this "abandon about" 0 0 4294967295
              initial_state) as (_ & _ & Hpath & Hthrown).
  split; [exact Hpath|]. apply Hthrown. reflexivity.
Defined.

Lemma instance_shared_witness :
  instance (snd (instance class_loaded)) = instance class_loaded /\
  fst (instance class_loaded) = 0%nat.
Proof.
  split; [|reflexivity].
  apply (instance_shared class_loaded).
  intros reference Hset. discriminate Hset.
Defined.

Lemma resetInstance_then_fresh_instance_witness :
  fst (instance (resetInstance (snd (instance class_loaded)))) = 1%nat /\
  objects (snd (instance class_loaded)) !! 1%nat = None.
Proof.
  split; [reflexivity|].
  exact (proj1 (resetInstance_then_fresh_instance (snd (instance class_loaded)))).
Defined.

(** The second call starts on the draft the first one left. *)
Lemma sendFromOneAddress_fresh_draft_witness :
  sendFromOneAddress
    (Prv := Sample.provider 80000 (Some Sample.spendable) (Some Sample.accepted))
    Sample.this Sample.payment_args
    (set_tx (Some (final_draft Sample.this Sample.payment_dust_args Sample.spendable))
            initial_state)
  = sendFromOneAddress
      (Prv := Sample.provider 80000 (Some Sample.spendable) (Some Sample.accepted))
      Sample.this Sample.payment_args initial_state.
Proof.
  apply (proj2 (sendFromOneAddress_fresh_draft
                  (Prv := Sample.provider 80000 (Some Sample.spendable) (Some Sample.accepted))
                  Sample.this Sample.payment_args initial_state
                  (Some (final_draft Sample.this Sample.payment_dust_args Sample.spendable)))).
  reflexivity.
Defined.

Lemma refreshAddress_request_discipline_witness :
  exists rest,
    requests (snd (refreshAddress
                     (Prv := Sample.provider 80000 (Some Sample.spendable) (Some Sample.accepted))
                     Sample.this Sample.the_wallet Sample.funded_address initial_state))
      = requests initial_state
        ++ GET (FULL_ADDRESS "1BgGZ9tcN4rm9KBzDn7KprQz87SZ26SAMH") :: rest /\
    (rest = [] \/
     rest = [GET (UNSPENT_OUTPUTS "1BgGZ9tcN4rm9KBzDn7KprQz87SZ26SAMH")] \/
     exists rawtx,
       rest = [GET (UNSPENT_OUTPUTS "1BgGZ9tcN4rm9KBzDn7KprQz87SZ26SAMH");
               POST SEND_TX rawtx]).
Proof.
  exact (refreshAddress_request_discipline
           (Prv := Sample.provider 80000 (Some Sample.spendable) (Some Sample.accepted))
           Sample.this Sample.the_wallet Sample.funded_address initial_state).
Defined.

End MoreExamples.
